(** * Student expense tracker: the ledger, its CSV store and its summaries

    A shallow embedding of [src/expense_tracker.py].  Python values are
    modelled as the program has them: amounts are IEEE-754 binary64 numbers
    (Rocq's primitive [float]) or the strings the program formats them to,
    the backing file is the sequence of CSV records it holds, and the
    callbacks of the [ExpenseTracker] window are state transformers over the
    window's fields.

    Outside the model: the quoting and the line ends of the [csv] module
    (the file is taken record by record), characters beyond ASCII in
    [strip] and [float], the log file, the Excel export, and the
    pictographs in the texts of the message boxes.  The identifier and the
    time stamp of a new entry, the selected line of the tree and the answers
    of the user are arguments of the callbacks.  The builtin [sum], which
    adds floats differently before and from CPython 3.12, and the outcome
    of the calls to pyplot are parameters of the development. *)

From Stdlib Require Import ZArith List String Ascii Bool Lia.
From Stdlib Require Import Floats.
Import ListNotations.

Set Warnings "-inexact-float".

Local Open Scope string_scope.
Local Open Scope Z_scope.

(** ** Python strings *)

Module PyStr.

(** [str.isspace] on the ASCII range: TAB..CR, FS..US and the space. *)
Definition is_space (c : ascii) : bool :=
  let n := Z.of_N (N_of_ascii c) in
  ((9 <=? n) && (n <=? 13)) || ((28 <=? n) && (n <=? 32)).

Fixpoint lstrip (s : string) : string :=
  match s with
  | EmptyString => EmptyString
  | String c s' => if is_space c then lstrip s' else s
  end.

Fixpoint rstrip (s : string) : string :=
  match s with
  | EmptyString => EmptyString
  | String c s' =>
      match rstrip s' with
      | EmptyString => if is_space c then EmptyString else String c EmptyString
      | r => String c r
      end
  end.

(** [s.strip()] *)
Definition strip (s : string) : string := rstrip (lstrip s).

(** [s.startswith(p)] *)
Definition startswith (s p : string) : bool := String.prefix p s.

(** Truth value of a string: [not s] holds of the empty string only. *)
Definition is_empty (s : string) : bool :=
  match s with EmptyString => true | _ => false end.

Fixpoint repeat_char (c : ascii) (n : nat) : string :=
  match n with O => EmptyString | S k => String c (repeat_char c k) end.

Fixpoint take (n : nat) (s : string) : string :=
  match n, s with
  | S k, String c s' => String c (take k s')
  | _, _ => EmptyString
  end.

Fixpoint drop (n : nat) (s : string) : string :=
  match n, s with
  | S k, String _ s' => drop k s'
  | _, _ => s
  end.

End PyStr.

(** ** Python floats: [float(str)], [repr] and the [.2f] format *)

Module PyFloat.

Definition is_digit (c : ascii) : bool :=
  let n := Z.of_N (N_of_ascii c) in (48 <=? n) && (n <=? 57).

Definition digit_val (c : ascii) : Z := Z.of_N (N_of_ascii c) - 48.

Definition digit_char (d : Z) : ascii := ascii_of_N (Z.to_N (d + 48)).

(** Value of a string of decimal digits, most significant first. *)
Fixpoint digits_val (acc : Z) (s : string) : Z :=
  match s with
  | EmptyString => acc
  | String c s' => digits_val (10 * acc + digit_val c) s'
  end.

(** The longest prefix of digits, and what follows it. *)
Fixpoint span_digits (s : string) : string * string :=
  match s with
  | EmptyString => (EmptyString, EmptyString)
  | String c s' =>
      if is_digit c
      then let (ds, r) := span_digits s' in (String c ds, r)
      else (EmptyString, s)
  end.

(** Decimal digits of a non-negative integer; ["0"] for zero. *)
Fixpoint digits_aux (fuel : nat) (n : Z) (acc : string) : string :=
  match fuel with
  | O => acc
  | S f =>
      let acc' := String (digit_char (n mod 10)) acc in
      if n / 10 =? 0 then acc' else digits_aux f (n / 10) acc'
  end.

Definition digits (n : Z) : string :=
  digits_aux (S (Z.to_nat (Z.log2 n))) n EmptyString.

(** *** Rounding a positive rational to binary64 *)

(** Round-half-even of [N / D], for [D > 0]. *)
Definition round_nearest_even (N D : Z) : Z :=
  let q := N / D in
  let r := N mod D in
  match 2 * r ?= D with
  | Lt => q
  | Gt => q + 1
  | Eq => if Z.even q then q else q + 1
  end.

(** [n / d / 2^e] as a fraction of integers. *)
Definition scale (n d e : Z) : Z * Z :=
  if 0 <=? e then (n, d * 2 ^ e) else (n * 2 ^ (- e), d).

(** The binary64 number nearest to [n / d] (ties to even), for [n, d > 0]:
    the exponent is chosen so that the significand has 53 bits, or is the
    least exponent -1074 for subnormal numbers; a result past the largest
    finite number is an infinity. *)
Definition binary_of_ratio (n d : Z) : spec_float :=
  let e1 := Z.max (-1074) (Z.log2 n - Z.log2 d - 53) in
  let '(N1, D1) := scale n d e1 in
  let e2 := if 2 ^ 53 <=? N1 / D1 then e1 + 1 else e1 in
  let '(N2, D2) := scale n d e2 in
  let m2 := round_nearest_even N2 D2 in
  let '(m, e) := if m2 =? 2 ^ 53 then (2 ^ 52, e2 + 1) else (m2, e2) in
  match m with
  | Zpos p => if 971 <? e then S754_infinity false else S754_finite false p e
  | _ => S754_zero false
  end.

(** *** [float(s)] *)

Definition lower (c : ascii) : ascii :=
  let n := N_of_ascii c in
  if ((65 <=? n) && (n <=? 90))%N then ascii_of_N (n + 32) else c.

Fixpoint lower_string (s : string) : string :=
  match s with
  | EmptyString => EmptyString
  | String c s' => String (lower c) (lower_string s')
  end.

(** Underscores may only stand between two digits; they are removed. *)
Fixpoint strip_underscores (prev : ascii) (s : string) : option string :=
  match s with
  | EmptyString => if Ascii.eqb prev "_" then None else Some EmptyString
  | String c s' =>
      if Ascii.eqb c "_"
      then if is_digit prev then strip_underscores c s' else None
      else if Ascii.eqb prev "_" && negb (is_digit c) then None
           else option_map (String c) (strip_underscores c s')
  end.

(** An optional sign: [true] for a minus. *)
Definition split_sign (s : string) : bool * string :=
  match s with
  | String "-" s' => (true, s')
  | String "+" s' => (false, s')
  | _ => (false, s)
  end.

(** [inf], [infinity] and [nan], in any case. [None] when the text is not
    one of them; [Some None] when it starts like one but does not end there. *)
Definition parse_inf_or_nan (s : string) : option (option spec_float) :=
  let l := lower_string s in
  if String.prefix "inf" l then
    let r := PyStr.drop 3 l in
    if String.eqb r "" || String.eqb r "inity"
    then Some (Some (S754_infinity false)) else Some None
  else if String.prefix "nan" l then
    if String.eqb (PyStr.drop 3 l) "" then Some (Some S754_nan) else Some None
  else None.

(** A decimal numeral [digits [. digits] [e [sign] digits]] with a digit
    before or after the point: its digits as an integer, the number of
    digits after the point, and the exponent. *)
Definition parse_decimal (s : string) : option (Z * Z * Z) :=
  let (ip, r1) := span_digits s in
  let (fp, r2) :=
    match r1 with
    | String "." r => span_digits r
    | _ => (EmptyString, r1)
    end in
  if PyStr.is_empty ip && PyStr.is_empty fp then None
  else
    let mant := digits_val (digits_val 0 ip) fp in
    let flen := Z.of_nat (String.length fp) in
    match r2 with
    | EmptyString => Some (mant, flen, 0)
    | String c r3 =>
        if Ascii.eqb (lower c) "e" then
          let (neg, r4) := split_sign r3 in
          let (ed, r5) := span_digits r4 in
          if PyStr.is_empty ed || negb (PyStr.is_empty r5) then None
          else Some (mant, flen, if neg then - digits_val 0 ed else digits_val 0 ed)
        else None
    end.

(** The value [mant * 10^(ex - flen)] rounded to binary64. *)
Definition decimal_to_binary (mant flen ex : Z) : spec_float :=
  if mant =? 0 then S754_zero false
  else
    let k := ex - flen in
    if 0 <=? k then binary_of_ratio (mant * 10 ^ k) 1
    else binary_of_ratio mant (10 ^ (- k)).

Definition with_sign (neg : bool) (x : spec_float) : float :=
  if neg then (- SF2Prim x)%float else SF2Prim x.

(** The blanks that [float] skips at the two ends of an ASCII [str]: those
    of C's [isspace], TAB..CR and the space.  The separators FS..US, which
    [str.strip] removes, are not among them: [float] of FS followed by [5]
    is a [ValueError]. *)
Definition c_isspace (c : ascii) : bool :=
  let n := Z.of_N (N_of_ascii c) in
  ((9 <=? n) && (n <=? 13)) || (n =? 32).

Fixpoint c_lstrip (s : string) : string :=
  match s with
  | EmptyString => EmptyString
  | String c s' => if c_isspace c then c_lstrip s' else s
  end.

Fixpoint c_rstrip (s : string) : string :=
  match s with
  | EmptyString => EmptyString
  | String c s' =>
      match c_rstrip s' with
      | EmptyString => if c_isspace c then EmptyString else String c EmptyString
      | r => String c r
      end
  end.

Definition c_strip (s : string) : string := c_rstrip (c_lstrip s).

(** [float(s)] for a [str]: [None] stands for [ValueError]. *)
Definition float_of_string (s : string) : option float :=
  match strip_underscores "000" (c_strip s) with
  | None => None
  | Some t =>
      let (neg, u) := split_sign t in
      match parse_inf_or_nan u with
      | Some r => option_map (with_sign neg) r
      | None =>
          match parse_decimal u with
          | Some (mant, flen, ex) => Some (with_sign neg (decimal_to_binary mant flen ex))
          | None => None
          end
      end
  end.

(** *** The [.2f] format *)

Definition sign_string (neg : bool) : string := if neg then "-" else "".

Definition two_digits (n : Z) : string :=
  String (digit_char (n / 10)) (String (digit_char (n mod 10)) EmptyString).

(** [f"{x:.2f}"]: the exact value of [x] rounded to hundredths, ties to even. *)
Definition format_2f (x : float) : string :=
  match Prim2SF x with
  | S754_nan => "nan"
  | S754_infinity s => sign_string s ++ "inf"
  | S754_zero s => sign_string s ++ "0.00"
  | S754_finite s m e =>
      let '(N, D) := scale (100 * Zpos m) 1 (- e) in
      let c := round_nearest_even N D in
      sign_string s ++ digits (c / 100) ++ "." ++ two_digits (c mod 100)
  end.

(** *** [repr(x)]: the shortest decimal string that reads back as [x] *)

(** [10^k <= n / d] *)
Definition pow10_le (n d k : Z) : bool :=
  if 0 <=? k then d * 10 ^ k <=? n else d <=? n * 10 ^ (- k).

(** The decimal exponent of [n / d]: the [E] with [10^E <= n/d < 10^(E+1)],
    looked for around the estimate that the binary sizes give. *)
Definition decimal_exponent (n d : Z) : Z :=
  let est := (Z.log2 n - Z.log2 d) * 30103 / 100000 in
  match find (pow10_le n d) [est + 2; est + 1; est; est - 1] with
  | Some k => k
  | None => est - 2
  end.

(** The integers next to [n / d / 10^k], the nearer one first (on a tie the
    even one); only one when the quotient is exact. *)
Definition round_candidates (n d k : Z) : list Z :=
  let '(N, D) := if 0 <=? k then (n, d * 10 ^ k) else (n * 10 ^ (- k), d) in
  let lo := N / D in
  let r := N mod D in
  if r =? 0 then [lo]
  else match 2 * r ?= D with
       | Lt => [lo; lo + 1]
       | Gt => [lo + 1; lo]
       | Eq => if Z.even lo then [lo; lo + 1] else [lo + 1; lo]
       end.

(** Trailing zeros of [c] move into the exponent. *)
Fixpoint trim_zeros (fuel : nat) (c k : Z) : Z * Z :=
  match fuel with
  | O => (c, k)
  | S f => if (c mod 10 =? 0) && negb (c =? 0) then trim_zeros f (c / 10) (k + 1) else (c, k)
  end.

(** The layout [repr] gives to the digits [c] scaled by [10^k]: scientific
    notation when the decimal point falls more than 16 places right of the
    first digit or more than 3 zeros left of it, positional otherwise,
    always with a digit on both sides of the point. *)
Definition repr_layout (neg : bool) (c k : Z) : string :=
  let '(c, k) := trim_zeros 20 c k in
  let ds := digits c in
  let len := Z.of_nat (String.length ds) in
  let decpt := len + k in
  sign_string neg ++
  (if (decpt <=? -4) || (16 <? decpt) then
     let ex := decpt - 1 in
     let frac := PyStr.drop 1 ds in
     PyStr.take 1 ds ++ (if PyStr.is_empty frac then "" else "." ++ frac) ++ "e" ++
     (if ex <? 0 then "-" else "+") ++
     (if Z.abs ex <? 10 then "0" else "") ++ digits (Z.abs ex)
   else if decpt <=? 0 then
     "0." ++ PyStr.repeat_char "0" (Z.to_nat (- decpt)) ++ ds
   else if len <=? decpt then
     ds ++ PyStr.repeat_char "0" (Z.to_nat (decpt - len)) ++ ".0"
   else
     PyStr.take (Z.to_nat decpt) ds ++ "." ++ PyStr.drop (Z.to_nat decpt) ds).

(** The candidates of every precision from 1 to 17 digits, shortest first. *)
Definition repr_candidates (neg : bool) (n d : Z) : list string :=
  let E := decimal_exponent n d in
  flat_map (fun p => map (fun c => repr_layout neg c (E - p + 1))
                         (round_candidates n d (E - p + 1)))
           [1; 2; 3; 4; 5; 6; 7; 8; 9; 10; 11; 12; 13; 14; 15; 16; 17].

Definition reads_back (x : float) (s : string) : bool :=
  match float_of_string s with
  | Some y => PrimFloat.Leibniz.eqb y x
  | None => false
  end.

(** [w] decimal digits of [n], with leading zeros. *)
Fixpoint fixed_digits (w : nat) (n : Z) (acc : string) : string :=
  match w with
  | O => acc
  | S w' => fixed_digits w' (n / 10) (String (digit_char (n mod 10)) acc)
  end.

(** The full decimal expansion of [m * 2^e], which is finite. *)
Definition exact_decimal (neg : bool) (m e : Z) : string :=
  sign_string neg ++
  (if 0 <=? e then digits (m * 2 ^ e) ++ ".0"
   else
     let c := m * 5 ^ (- e) in
     let q := 10 ^ (- e) in
     digits (c / q) ++ "." ++ fixed_digits (Z.to_nat (- e)) (c mod q) "").

(** [repr(x)], which is also [str(x)]: the first candidate that [float]
    reads back as [x].  Seventeen digits always suffice for binary64, so the
    search succeeds; the last branch gives the full expansion. *)
Definition float_repr (x : float) : string :=
  match Prim2SF x with
  | S754_nan => "nan"
  | S754_infinity s => sign_string s ++ "inf"
  | S754_zero s => sign_string s ++ "0.0"
  | S754_finite s m e =>
      let '(n, d) := scale (Zpos m) 1 (- e) in
      match find (reads_back x) (repr_candidates s n d) with
      | Some str => str
      | None => exact_decimal s (Zpos m) e
      end
  end.

End PyFloat.

(** ** Entries and the backing file *)

Import PyStr PyFloat.

(** The value under ['Amount']: [read_entries] stores a float, [add_entry]
    and [save_changes] store the string of the [.2f] format. *)
Inductive amount : Type :=
| AStr (s : string)
| AFloat (x : float).

(** An entry is a dict with the six keys of [CSV_FIELDS]. *)
Record entry : Type := mkEntry {
  ID : string;
  Date : string;
  Type_ : string;
  Amount : amount;
  Category : string;
  Note : string
}.

Inductive exn : Type :=
| ValueError   (* float() of a string that is not a number *)
| BadShape.    (* a header or record that is not made of the six fields *)

Inductive result (A : Type) : Type :=
| Ok (a : A)
| Raise (e : exn).
Arguments Ok {A} a.
Arguments Raise {A} e.

(** The file is held as the CSV records the [csv] module reads from it and
    writes to it, one list of fields per record, the header first; [None]
    is a file that does not exist. *)
Definition csv_file : Type := option (list (list string)).

Definition CSV_FIELDS : list string :=
  ["ID"; "Date"; "Type"; "Amount"; "Category"; "Note"].

Definition ensure_file (f : csv_file) : csv_file :=
  match f with
  | None => Some [CSV_FIELDS]
  | Some _ => f
  end.

(** [float(v)] of the value under ['Amount']. *)
Definition amount_float (a : amount) : result float :=
  match a with
  | AFloat x => Ok x
  | AStr s =>
      match float_of_string s with
      | Some x => Ok x
      | None => Raise ValueError
      end
  end.

(** The rows of a [DictReader] whose field names are [CSV_FIELDS], with
    ['Amount'] made a float: blank records are skipped, the first record
    whose amount is not a number raises.  Records that are not six fields
    long would give dicts of another shape and are not modelled. *)
Fixpoint read_rows (rows : list (list string)) : result (list entry) :=
  match rows with
  | [] => Ok []
  | [] :: rest => read_rows rest
  | [i; d; t; a; c; n] :: rest =>
      match float_of_string a with
      | None => Raise ValueError
      | Some x =>
          match read_rows rest with
          | Ok es => Ok (mkEntry i d t (AFloat x) c n :: es)
          | Raise e => Raise e
          end
      end
  | _ :: _ => Raise BadShape
  end.

(** [read_entries()]: the file after [ensure_file], and the entries.  The
    reader takes its field names from the first record of the file; with
    other names than [CSV_FIELDS] the dicts have another shape. *)
Definition read_entries (f : csv_file) : csv_file * result (list entry) :=
  let f' := ensure_file f in
  (f', match f' with
       | None | Some [] => Ok []
       | Some (header :: rows) =>
           if list_eq_dec string_dec header CSV_FIELDS then read_rows rows
           else if forallb (fun r => Nat.eqb (List.length r) 0) rows then Ok []
                else Raise BadShape
       end).

(** What the [csv] writer puts in the ['Amount'] column: a string as it is,
    a float through [str]. *)
Definition amount_cell (a : amount) : string :=
  match a with
  | AStr s => s
  | AFloat x => float_repr x
  end.

(** [{k: e[k] for k in CSV_FIELDS}] as a record of the file. *)
Definition csv_row (e : entry) : list string :=
  [ID e; Date e; Type_ e; amount_cell (Amount e); Category e; Note e].

(** [write_entries(entries)]: the header and one record per entry. *)
Definition write_entries (es : list entry) (f : csv_file) : csv_file :=
  Some (CSV_FIELDS :: map csv_row es).

(** [append_entry(entry)] *)
Definition append_entry (e : entry) (f : csv_file) : csv_file :=
  match ensure_file f with
  | Some rows => Some (rows ++ [csv_row e])%list
  | None => None
  end.

(** ** The window and its callbacks *)

(** What the program shows: the message boxes and the pie chart. *)
Inductive dialog : Type :=
| showerror (title message : string)
| showwarning (title message : string)
| showinfo (title message : string)
| pie_chart (values : list float) (labels : list string).

(** The fields of [ExpenseTracker] that the callbacks read and write, the
    backing file, and the dialogs shown so far (latest last). *)
Record app : Type := mkApp {
  entries : list entry;
  budget : option float;
  category_var : string;
  amount_var : string;
  type_var : string;
  note_var : string;
  budget_var : string;
  tree : list (list string);
  file : csv_file;
  dialogs : list dialog
}.

Definition set_entries (es : list entry) (st : app) : app :=
  mkApp es (budget st) (category_var st) (amount_var st) (type_var st)
        (note_var st) (budget_var st) (tree st) (file st) (dialogs st).

Definition set_budget_field (b : option float) (st : app) : app :=
  mkApp (entries st) b (category_var st) (amount_var st) (type_var st)
        (note_var st) (budget_var st) (tree st) (file st) (dialogs st).

Definition set_tree (t : list (list string)) (st : app) : app :=
  mkApp (entries st) (budget st) (category_var st) (amount_var st) (type_var st)
        (note_var st) (budget_var st) t (file st) (dialogs st).

Definition set_file (f : csv_file) (st : app) : app :=
  mkApp (entries st) (budget st) (category_var st) (amount_var st) (type_var st)
        (note_var st) (budget_var st) (tree st) f (dialogs st).

Definition add_dialog (d : dialog) (st : app) : app :=
  mkApp (entries st) (budget st) (category_var st) (amount_var st) (type_var st)
        (note_var st) (budget_var st) (tree st) (file st) (dialogs st ++ [d])%list.

(** [category_var.set(""); amount_var.set(""); note_var.set("")] *)
Definition clear_inputs (st : app) : app :=
  mkApp (entries st) (budget st) "" "" (type_var st)
        "" (budget_var st) (tree st) (file st) (dialogs st).

(** A callback runs on the window and either returns or raises; what it
    changed before raising stays changed. *)
Definition M (A : Type) : Type := app -> result A * app.

Definition ret {A : Type} (a : A) : M A := fun st => (Ok a, st).

Definition bind {A B : Type} (c : M A) (k : A -> M B) : M B :=
  fun st =>
    match c st with
    | (Ok a, st') => k a st'
    | (Raise e, st') => (Raise e, st')
    end.

Definition get : M app := fun st => (Ok st, st).

Definition modify (f : app -> app) : M unit := fun st => (Ok tt, f st).

Definition lift {A : Type} (r : result A) : M A := fun st => (r, st).

Notation "x <- c ;; k" := (bind c (fun x => k))
  (at level 61, c at next level, right associativity).
Notation "c ;;; k" := (bind c (fun _ => k))
  (at level 61, right associativity).

Definition show (d : dialog) : M unit := modify (add_dialog d).

Definition has_type (t : string) (e : entry) : bool := String.eqb (Type_ e) t.

(** The float loop of the builtin [sum] up to CPython 3.11, continued from
    [acc] over [float(e['Amount']) for e in es]: the additions are made from
    left to right, each one rounded. *)
Fixpoint sum_amounts (acc : float) (es : list entry) : result float :=
  match es with
  | [] => Ok acc
  | e :: rest =>
      match amount_float (Amount e) with
      | Ok x => sum_amounts (acc + x)%float rest
      | Raise err => Raise err
      end
  end.

(** The float loop of the builtin [sum] from CPython 3.12 on, continued
    from the running sum [acc] and the running compensation [c] of the
    rounding errors (Neumaier's algorithm); the compensation is added at the
    end, unless it is zero or not finite. *)
Fixpoint sum_amounts_compensated (acc c : float) (es : list entry) : result float :=
  match es with
  | [] => Ok (if PrimFloat.eqb c 0 || negb (PrimFloat.is_finite c) then acc else acc + c)%float
  | e :: rest =>
      match amount_float (Amount e) with
      | Ok x =>
          let t := (acc + x)%float in
          let c' := if (PrimFloat.abs x <=? PrimFloat.abs acc)%float
                    then (c + ((acc - t) + x))%float
                    else (c + ((x - t) + acc))%float in
          sum_amounts_compensated t c' rest
      | Raise err => Raise err
      end
  end.

(** [sum(float(e['Amount']) for e in es)] on either interpreter: [sum]
    starts from the integer [0], adds the first amount to it, and goes on
    in its float loop. *)
Definition builtin_sum (compensated : bool) (es : list entry) : result float :=
  if compensated then
    match es with
    | [] => Ok 0%float
    | e :: rest =>
        match amount_float (Amount e) with
        | Ok x => sum_amounts_compensated (0 + x)%float 0%float rest
        | Raise err => Raise err
        end
    end
  else sum_amounts 0%float es.

(** One line of the Treeview. *)
Definition tree_values (e : entry) (x : float) : list string :=
  [ID e; Date e; Type_ e; format_2f x; Category e; Note e].

Fixpoint tree_insert_all (use : list entry) : M unit :=
  match use with
  | [] => ret tt
  | e :: rest =>
      x <- lift (amount_float (Amount e)) ;;
      modify (fun st => set_tree (tree st ++ [tree_values e x])%list st) ;;;
      tree_insert_all rest
  end.

(** [_populate_tree(entries=None)] *)
Definition _populate_tree (arg : option (list entry)) : M unit :=
  modify (set_tree []) ;;;
  st <- get ;;
  tree_insert_all (match arg with Some es => es | None => entries st end).

(** [_load_entries()] *)
Definition _load_entries : M unit :=
  st <- get ;;
  let (f, r) := read_entries (file st) in
  modify (set_file f) ;;;
  es <- lift r ;;
  modify (set_entries es) ;;;
  _populate_tree None.

Definition newline : string := String "010" EmptyString.
Definition rupee : string := String "226" (String "130" (String "185" EmptyString)).

(** The two kinds of interpreter, by their [sum]. *)
Definition cpython311 : bool := false.
Definition cpython312 : bool := true.

(** A pyplot that draws every pie but one with a negative size. *)
Definition pie_unless_negative (values : list float) (labels : list string)
  : result unit :=
  if existsb (fun v => (v <? 0)%float) values then Raise ValueError else Ok tt.

(** Two things the program takes from where it runs are fixed for a
    session; every statement below holds whatever they are. *)
Section Interpreter.

(** The builtin [sum] adds floats from left to right up to CPython 3.11
    ([false]) and with a compensation term from CPython 3.12 on ([true]). *)
Variable compensated : bool.

(** What the calls to [matplotlib.pyplot] do in [show_chart], given the
    sizes and the labels of the wedges: they draw the chart and return, or
    raise (as [pie] does when it is given a negative size). *)
Variable pyplot_pie : list float -> list string -> result unit.

(** [sum(float(e['Amount']) for e in es)] on the interpreter of the session. *)
Definition py_sum (es : list entry) : result float := builtin_sum compensated es.

(** [add_entry()]: [uuid4] and [now] are the identifier and the time stamp
    that [uuid.uuid4()] and [datetime.now()] give to this call. *)
Definition add_entry (uuid4 now : string) : M unit :=
  st <- get ;;
  let cat := strip (category_var st) in
  let amt := strip (amount_var st) in
  let typ := type_var st in
  let note := strip (note_var st) in
  if is_empty cat || is_empty amt then
    show (showerror "Validation Error" "Category and Amount are required.")
  else
    match float_of_string amt with
    | None => show (showerror "Validation Error" "Amount must be a number.")
    | Some amt_f =>
        let entry := mkEntry uuid4 now typ (AStr (format_2f amt_f)) cat note in
        modify (fun st => set_file (append_entry entry (file st)) st) ;;;
        modify (fun st => set_entries (entries st ++ [entry])%list st) ;;;
        _populate_tree None ;;;
        modify clear_inputs ;;;
        st <- get ;;
        match budget st with
        | Some b =>
            if String.eqb typ "Expense" then
              total_exp <- lift (py_sum (filter (has_type "Expense") (entries st))) ;;
              if (b <? total_exp)%float then
                show (showwarning "Budget Exceeded"
                        ("You have exceeded your budget of " ++ rupee ++ format_2f b
                         ++ "\." ++ newline ++ "Total expense: " ++ rupee
                         ++ format_2f total_exp))
              else ret tt
            else ret tt
        | None => ret tt
        end
    end.

(** [_on_delete_selected()]: [sel] is the ID in the selected line of the
    tree, if a line is selected, and [yes] the answer to the confirmation. *)
Definition _on_delete_selected (sel : option string) (yes : bool) : M unit :=
  match sel with
  | None => ret tt
  | Some entry_id =>
      if yes then
        modify (fun st => set_entries
                  (filter (fun e => negb (String.eqb (ID e) entry_id)) (entries st)) st) ;;;
        modify (fun st => set_file (write_entries (entries st) (file st)) st) ;;;
        _populate_tree None
      else ret tt
  end.

(** The Edit window opened on an entry.  The closure of [save_changes]
    holds the dict that [_open_edit_window] found in [self.entries]; it is
    named here by its position [target] in that list.  The four variables
    start from the entry's values and hold what the user typed since. *)
Record edit_window : Type := mkEdit {
  target : nat;
  cat_v : string;
  amt_v : string;
  type_v : string;
  note_v : string
}.

(** [next((e for e in es if e['ID'] == entry_id), None)], with its position. *)
Fixpoint find_entry (entry_id : string) (i : nat) (es : list entry) : option (nat * entry) :=
  match es with
  | [] => None
  | e :: rest =>
      if String.eqb (ID e) entry_id then Some (i, e)
      else find_entry entry_id (S i) rest
  end.

(** [_open_edit_window(entry_id)], up to the window it builds. *)
Definition _open_edit_window (entry_id : string) : M (option edit_window) :=
  st <- get ;;
  match find_entry entry_id 0 (entries st) with
  | None => show (showerror "Error" "Entry not found") ;;; ret None
  | Some (i, entry) =>
      ret (Some (mkEdit i (Category entry) (amount_cell (Amount entry))
                        (Type_ entry) (Note entry)))
  end.

(** The dict at position [i] changed in place. *)
Fixpoint update_at (i : nat) (f : entry -> entry) (es : list entry) : list entry :=
  match es, i with
  | [], _ => []
  | e :: rest, O => f e :: rest
  | e :: rest, S j => e :: update_at j f rest
  end.

(** The four assignments of [save_changes] to the entry. *)
Definition assign_fields (w : edit_window) (new_amt : float) (e : entry) : entry :=
  mkEntry (ID e) (Date e) (type_v w) (AStr (format_2f new_amt))
          (strip (cat_v w)) (strip (note_v w)).

(** [save_changes()], the Save button of the Edit window. *)
Definition save_changes (w : edit_window) : M unit :=
  match float_of_string (amt_v w) with
  | None => show (showerror "Validation Error" "Amount must be a number.")
  | Some new_amt =>
      modify (fun st => set_entries
                (update_at (target w) (assign_fields w new_amt) (entries st)) st) ;;;
      modify (fun st => set_file (write_entries (entries st) (file st)) st) ;;;
      _populate_tree None
  end.

(** The totals that [show_summary] computes. *)
Record totals : Type := mkTotals {
  income : float;
  expense : float;
  balance : float
}.

Definition summary_totals (use : list entry) : result totals :=
  match py_sum (filter (has_type "Income") use) with
  | Raise e => Raise e
  | Ok income =>
      match py_sum (filter (has_type "Expense") use) with
      | Raise e => Raise e
      | Ok expense => Ok (mkTotals income expense (income - expense)%float)
      end
  end.

(** [show_summary(entries=None)] *)
Definition show_summary (arg : option (list entry)) : M unit :=
  st <- get ;;
  let use := match arg with Some es => es | None => entries st end in
  t <- lift (summary_totals use) ;;
  let msg := "Total Income: " ++ rupee ++ format_2f (income t) ++ newline
             ++ "Total Expense: " ++ rupee ++ format_2f (expense t) ++ newline
             ++ "Balance: " ++ rupee ++ format_2f (balance t) in
  show (showinfo "Summary"
          (match budget st with
           | Some b => msg ++ newline ++ newline ++ "Monthly Budget: " ++ rupee ++ format_2f b
           | None => msg
           end)).

(** The [categories] dict of [show_chart], in insertion order. *)
Fixpoint dict_get (d : list (string * float)) (k : string) : option float :=
  match d with
  | [] => None
  | (k', v) :: rest => if String.eqb k' k then Some v else dict_get rest k
  end.

Fixpoint dict_set (d : list (string * float)) (k : string) (v : float) : list (string * float) :=
  match d with
  | [] => [(k, v)]
  | (k', v') :: rest =>
      if String.eqb k' k then (k', v) :: rest else (k', v') :: dict_set rest k v
  end.

(** The loop of [show_chart] over [use], from the dict [categories]. *)
Fixpoint chart_categories (categories : list (string * float)) (use : list entry)
  : result (list (string * float)) :=
  match use with
  | [] => Ok categories
  | e :: rest =>
      if has_type "Expense" e then
        match amount_float (Amount e) with
        | Ok x =>
            let old := match dict_get categories (Category e) with
                       | Some v => v
                       | None => 0%float
                       end in
            chart_categories (dict_set categories (Category e) (old + x)%float) rest
        | Raise err => Raise err
        end
      else chart_categories categories rest
  end.

(** [show_chart(entries=None)]: the chart counts as shown once the calls
    to [matplotlib.pyplot] have returned. *)
Definition show_chart (arg : option (list entry)) : M unit :=
  st <- get ;;
  let use := match arg with Some es => es | None => entries st end in
  categories <- lift (chart_categories [] use) ;;
  match categories with
  | [] => show (showinfo "Info" "No expenses to show in chart")
  | _ =>
      lift (pyplot_pie (map snd categories) (map fst categories)) ;;;
      show (pie_chart (map snd categories) (map fst categories))
  end.

(** The list comprehension of [apply_filter]. *)
Definition month_filter (m : string) (es : list entry) : list entry :=
  filter (fun e => startswith (Date e) m) es.

(** [apply_filter()], the Apply button of the month filter, on the text
    [month_v] of its entry field. *)
Definition apply_filter (month_v : string) : M unit :=
  let m := strip month_v in
  if is_empty m then
    show (showerror "Input Error" "Please enter month in format YYYY-MM")
  else
    st <- get ;;
    let filtered := month_filter m (entries st) in
    (match filtered with
     | [] => show (showinfo "No Data" ("No records for " ++ m))
     | _ => ret tt
     end) ;;;
    _populate_tree (Some filtered).

(** [set_budget()] *)
Definition set_budget : M unit :=
  st <- get ;;
  let b := strip (budget_var st) in
  if is_empty b then
    modify (set_budget_field None) ;;;
    show (showinfo "Budget" "Budget cleared")
  else
    match float_of_string b with
    | None => show (showerror "Validation Error" "Budget must be a number.")
    | Some bf =>
        modify (set_budget_field (Some bf)) ;;;
        show (showinfo "Budget Set" ("Monthly budget set to " ++ rupee ++ format_2f bf))
    end.

(** [ExpenseTracker()] over the file [f]: the fresh window after
    [_build_ui()] and [_load_entries()]. *)
Definition init_app (f : csv_file) : app :=
  mkApp [] None "" "" "Expense" "" "" [] f [].

Definition startup (f : csv_file) : result unit * app :=
  _load_entries (init_app f).

(** ** Predicates of the statements *)

(** The budget warning of [add_entry]. *)
Definition is_budget_exceeded (d : dialog) : bool :=
  match d with
  | showwarning title _ => String.eqb title "Budget Exceeded"
  | _ => false
  end.

(** The validation error of [add_entry] and [save_changes]. *)
Definition is_validation_error (d : dialog) : bool :=
  match d with
  | showerror title _ => String.eqb title "Validation Error"
  | _ => false
  end.

(** Every amount held in memory can be read as a number. *)
Definition readable (es : list entry) : Prop :=
  Forall (fun e => exists x, amount_float (Amount e) = Ok x) es.

(** The lines that [_populate_tree] inserts for [es]. *)
Fixpoint tree_lines (es : list entry) : result (list (list string)) :=
  match es with
  | [] => Ok []
  | e :: rest =>
      match amount_float (Amount e) with
      | Raise err => Raise err
      | Ok x =>
          match tree_lines rest with
          | Raise err => Raise err
          | Ok ls => Ok (tree_values e x :: ls)
          end
      end
  end.

(** ** Sample data *)

Definition set_inputs (c a t n : string) (st : app) : app :=
  mkApp (entries st) (budget st) c a t n (budget_var st) (tree st) (file st) (dialogs st).

Definition sample_file : csv_file :=
  Some [CSV_FIELDS;
        ["a"; "2024-03-01 10:00:00"; "Expense"; "12.50"; "Food"; "lunch"];
        ["b"; "2024-03-02 09:30:00"; "Income"; "3.00"; "Gift"; ""];
        ["c"; "2024-04-01 08:00:00"; "Expense"; "7.25"; "Bus"; ""]].

(** The window once started on [sample_file]. *)
Definition sample_app : app := snd (startup sample_file).

(** A month as the filter dialog asks for it: [YYYY-MM]. *)
Definition is_yyyymm (m : string) : bool :=
  match m with
  | String y1 (String y2 (String y3 (String y4 (String d
      (String m1 (String m2 EmptyString)))))) =>
      is_digit y1 && is_digit y2 && is_digit y3 && is_digit y4
      && Ascii.eqb d "-" && is_digit m1 && is_digit m2
  | _ => false
  end.

(** [l1] is [l2] with some elements left out, the others in their order. *)
Inductive subseq {A : Type} : list A -> list A -> Prop :=
| subseq_nil : subseq [] []
| subseq_skip : forall a l1 l2, subseq l1 l2 -> subseq l1 (a :: l2)
| subseq_keep : forall a l1 l2, subseq l1 l2 -> subseq (a :: l1) (a :: l2).


(** An amount written with two decimal digits: digits, a point, two digits. *)
Definition two_decimals (s : string) : bool :=
  let (ip, r) := span_digits s in
  negb (is_empty ip) &&
  match r with
  | String p (String a (String b EmptyString)) =>
      Ascii.eqb p "." && is_digit a && is_digit b
  | _ => false
  end.

(** Three expenses of 0.10, 0.20 and 0.70. *)
Definition ten_cents : entry :=
  mkEntry "x" "2024-05-01 09:00:00" "Expense" (AStr "0.10") "Pen" "".
Definition twenty_cents : entry :=
  mkEntry "y" "2024-05-01 09:05:00" "Expense" (AStr "0.20") "Pen" "".
Definition seventy_cents : entry :=
  mkEntry "z" "2024-05-01 09:10:00" "Expense" (AStr "0.70") "Ink" "".
Definition thirty_cents : entry :=
  mkEntry "w" "2024-05-01 09:15:00" "Expense" (AStr "0.30") "Pen" "".

(** A window with the expenses 0.10 and 0.20 in its ledger and a budget of
    0.6, where an expense of 0.30 is typed in. *)
Definition budget_app : app :=
  mkApp [ten_cents; twenty_cents] (Some 0.6%float) "Pen" "0.30" "Expense" "" "" []
        (Some [CSV_FIELDS; csv_row ten_cents; csv_row twenty_cents]) [].

(** The entries that count for category [c] in the chart. *)
Definition expense_of (c : string) (e : entry) : bool :=
  has_type "Expense" e && String.eqb (Category e) c.

(** Strings of decimal digits, and strings without underscore. *)
Fixpoint all_digits (s : string) : bool :=
  match s with
  | EmptyString => true
  | String c s' => is_digit c && all_digits s'
  end.

Fixpoint no_underscore (s : string) : bool :=
  match s with
  | EmptyString => true
  | String c s' => negb (Ascii.eqb c "_") && no_underscore s'
  end.

(** [n / d = m * 2^e], without fractions. *)
Definition exact_ratio (n d m e : Z) : Prop :=
  n * 2 ^ Z.max 0 (- e) = m * d * 2 ^ Z.max 0 e.

(** A record of a well-formed file: six fields, the fourth a number; or a
    blank line. *)
Definition well_formed_row (r : list string) : bool :=
  match r with
  | [] => true
  | [_; _; _; a; _; _] =>
      match float_of_string a with Some _ => true | None => false end
  | _ => false
  end.

(** A well-formed backing file: the header of [CSV_FIELDS], then
    well-formed records. *)
Definition well_formed (f : csv_file) : bool :=
  match f with
  | Some (header :: rows) =>
      (if list_eq_dec string_dec header CSV_FIELDS then true else false)
      && forallb well_formed_row rows
  | _ => false
  end.

(** The entry holds its amount as a float, as [read_entries] leaves it. *)
Definition holds_float (e : entry) : Prop := exists x, Amount e = AFloat x.

(** The windows that the program reaches: started on some file, then any
    of its callbacks, whatever the user typed or chose before each. *)
Inductive reachable : app -> Prop :=
| reach_start : forall f, reachable (snd (startup f))
| reach_inputs : forall st c a t n b,
    reachable st ->
    reachable (mkApp (entries st) (budget st) c a t n b (tree st) (file st) (dialogs st))
| reach_load : forall st, reachable st -> reachable (snd (_load_entries st))
| reach_add : forall st uuid4 now,
    reachable st -> reachable (snd (add_entry uuid4 now st))
| reach_delete : forall st sel yes,
    reachable st -> reachable (snd (_on_delete_selected sel yes st))
| reach_save : forall st entry_id w0 st0 w,
    reachable st ->
    _open_edit_window entry_id st = (Ok (Some w0), st0) ->
    target w = target w0 ->
    reachable (snd (save_changes w st0))
| reach_filter : forall st m, reachable st -> reachable (snd (apply_filter m st))
| reach_budget : forall st, reachable st -> reachable (snd (set_budget st))
| reach_summary : forall st, reachable st -> reachable (snd (show_summary None st))
| reach_chart : forall st, reachable st -> reachable (snd (show_chart None st)).

(** ** The ledger and the file over a session *)


(** [e'] is [e] as [read_entries] gives it back: the same strings, and the
    amount as the float that [float] reads in it. *)
Definition loaded_as (e e' : entry) : Prop :=
  ID e' = ID e /\ Date e' = Date e /\ Type_ e' = Type_ e /\
  Category e' = Category e /\ Note e' = Note e /\
  exists x, amount_float (Amount e) = Ok x /\ Amount e' = AFloat x.





(** ** Export *)

(** Text as it is read from a file opened without [newline='']: a carriage
    return, alone or before a line feed, comes out as one line feed. *)
Fixpoint universal_newlines (s : string) : string :=
  match s with
  | EmptyString => EmptyString
  | String c r =>
      if Ascii.eqb c "013" then
        String "010"
          (match r with
           | String c2 r2 =>
               if Ascii.eqb c2 "010" then universal_newlines r2
               else universal_newlines r
           | EmptyString => EmptyString
           end)
      else String c (universal_newlines r)
  end.

(** [export_csv()]: [path] is the answer of the file dialog, empty when the
    dialog was cancelled, and [onto_data_file] tells whether it names the
    backing file itself.  The result is the file written at [path], record
    by record, when that is another file.  The backing file is read through
    a handle with newline translation, hence [universal_newlines] on every
    field; when [path] is the backing file, opening it for writing empties
    it before it is read, and what is copied is the empty text. *)
Definition export_csv (path : string) (onto_data_file : bool)
  : M (option (list (list string))) :=
  if is_empty path then ret None
  else
    modify (fun st => set_file (write_entries (entries st) (file st)) st) ;;;
    st <- get ;;
    copied <- (if onto_data_file
               then modify (set_file (Some [])) ;;; ret None
               else ret (option_map (map (map universal_newlines)) (file st))) ;;
    show (showinfo "Export" ("Exported CSV to " ++ path)) ;;;
    ret copied.

(** No carriage return in the text. *)
Fixpoint no_cr (s : string) : bool :=
  match s with
  | EmptyString => true
  | String c r => negb (Ascii.eqb c "013") && no_cr r
  end.

(** * Properties *)

Ltac run := unfold bind, get, modify, lift, ret, show; simpl.

(** ** What the tree does not touch *)

Lemma tree_insert_all_frame : forall es st,
  let st' := snd (tree_insert_all es st) in
  entries st' = entries st /\ budget st' = budget st /\
  file st' = file st /\ dialogs st' = dialogs st.
Proof.
  induction es as [|e rest IH]; intros st; simpl.
  - auto.
  - run. destruct (amount_float (Amount e)) as [x|err]; simpl.
    + specialize (IH (set_tree (tree st ++ [tree_values e x])%list st)).
      simpl in IH. exact IH.
    + auto.
Qed.

Lemma populate_tree_frame : forall arg st,
  let st' := snd (_populate_tree arg st) in
  entries st' = entries st /\ budget st' = budget st /\
  file st' = file st /\ dialogs st' = dialogs st.
Proof.
  intros arg st. unfold _populate_tree. run.
  apply (tree_insert_all_frame _ (set_tree [] st)).
Qed.

Lemma tree_insert_all_lines : forall es st,
  tree_insert_all es st =
  match tree_lines es with
  | Ok ls => (Ok tt, set_tree (tree st ++ ls)%list st)
  | Raise err => (Raise err, snd (tree_insert_all es st))
  end.
Proof.
  induction es as [|e rest IH]; intros st; simpl.
  - unfold ret. rewrite app_nil_r. destruct st; reflexivity.
  - run. destruct (amount_float (Amount e)) as [x|err]; simpl; [|reflexivity].
    rewrite IH. destruct (tree_lines rest) as [ls|err]; simpl.
    + rewrite <- app_assoc. reflexivity.
    + reflexivity.
Qed.

Lemma readable_tree_lines : forall es,
  readable es -> exists ls, tree_lines es = Ok ls.
Proof.
  induction 1 as [|e rest [x Hx] _ [ls IH]]; simpl.
  - eauto.
  - rewrite Hx, IH. eauto.
Qed.

(** ** [add_entry] *)

(** The state after the two appends of [add_entry]. *)
Lemma add_entry_unfold : forall uuid4 now st,
  add_entry uuid4 now st =
  let cat := strip (category_var st) in
  let amt := strip (amount_var st) in
  if is_empty cat || is_empty amt then
    (Ok tt, add_dialog (showerror "Validation Error" "Category and Amount are required.") st)
  else
    match float_of_string amt with
    | None => (Ok tt, add_dialog (showerror "Validation Error" "Amount must be a number.") st)
    | Some amt_f =>
        let e := mkEntry uuid4 now (type_var st) (AStr (format_2f amt_f)) cat
                         (strip (note_var st)) in
        let st2 := set_entries (entries st ++ [e])%list
                     (set_file (append_entry e (file st)) st) in
        match _populate_tree None st2 with
        | (Raise err, st3) => (Raise err, st3)
        | (Ok _, st3) =>
            let st4 := clear_inputs st3 in
            match budget st4 with
            | Some b =>
                if String.eqb (type_var st) "Expense" then
                  match py_sum (filter (has_type "Expense") (entries st4)) with
                  | Raise err => (Raise err, st4)
                  | Ok total_exp =>
                      if (b <? total_exp)%float then
                        (Ok tt, add_dialog
                           (showwarning "Budget Exceeded"
                              ("You have exceeded your budget of " ++ rupee ++ format_2f b
                               ++ "\." ++ newline ++ "Total expense: " ++ rupee
                               ++ format_2f total_exp)) st4)
                      else (Ok tt, st4)
                  end
                else (Ok tt, st4)
            | None => (Ok tt, st4)
            end
        end
    end.
Proof.
  intros uuid4 now st. unfold add_entry. run.
  destruct (is_empty (strip (category_var st)) || is_empty (strip (amount_var st)));
    [reflexivity|].
  destruct (float_of_string (strip (amount_var st))) as [amt_f|]; [|reflexivity].
  match goal with |- context [_populate_tree None ?s] =>
    destruct (_populate_tree None s) as [[[]|err] st3] end; [|reflexivity].
  simpl. destruct (budget st3) as [b|]; [|reflexivity].
  destruct (String.eqb (type_var st) "Expense"); [|reflexivity].
  destruct (py_sum (filter (has_type "Expense") (entries st3))) as [t|err];
    [|reflexivity].
  destruct (b <? t)%float; reflexivity.
Qed.



(** ** [save_changes] and [_on_delete_selected] step by step *)

Lemma save_changes_unfold : forall w st,
  save_changes w st =
  match float_of_string (amt_v w) with
  | None => (Ok tt, add_dialog (showerror "Validation Error" "Amount must be a number.") st)
  | Some new_amt =>
      let es := update_at (target w) (assign_fields w new_amt) (entries st) in
      _populate_tree None (set_file (write_entries es (file st)) (set_entries es st))
  end.
Proof.
  intros w st. unfold save_changes.
  destruct (float_of_string (amt_v w)); reflexivity.
Qed.

Lemma on_delete_selected_unfold : forall sel yes st,
  _on_delete_selected sel yes st =
  match sel with
  | None => (Ok tt, st)
  | Some entry_id =>
      if yes then
        let es := filter (fun e => negb (String.eqb (ID e) entry_id)) (entries st) in
        _populate_tree None (set_file (write_entries es (file st)) (set_entries es st))
      else (Ok tt, st)
  end.
Proof.
  intros [entry_id|] [|] st; reflexivity.
Qed.

(** ** Editing *)

(** C2 at its failing input: the Edit window opened on entry ["a"] of the
    sample ledger, its category field blanked, then Save.  The entry is
    kept with the empty category, in memory and in the file. *)
Theorem save_changes_accepts_empty_category :
  fst (_open_edit_window "a" sample_app)
    = Ok (Some (mkEdit 0 "Food" "12.5" "Expense" "lunch")) /\
  fst (save_changes (mkEdit 0 "  " "12.5" "Expense" "lunch") sample_app) = Ok tt /\
  map Category (entries (snd (save_changes (mkEdit 0 "  " "12.5" "Expense" "lunch") sample_app)))
    = [""; "Gift"; "Bus"] /\
  file (snd (save_changes (mkEdit 0 "  " "12.5" "Expense" "lunch") sample_app))
    = Some [CSV_FIELDS;
            ["a"; "2024-03-01 10:00:00"; "Expense"; "12.50"; ""; "lunch"];
            ["b"; "2024-03-02 09:30:00"; "Income"; "3.0"; "Gift"; ""];
            ["c"; "2024-04-01 08:00:00"; "Expense"; "7.25"; "Bus"; ""]].
Proof.
  repeat split; vm_compute; reflexivity.
Qed.

Lemma find_entry_nth : forall entry_id es base i e,
  find_entry entry_id base es = Some (i, e) ->
  (base <= i)%nat /\ nth_error es (i - base) = Some e /\ ID e = entry_id.
Proof.
  intros entry_id es. induction es as [|a rest IH]; intros base i e H; simpl in H.
  - discriminate.
  - destruct (String.eqb (ID a) entry_id) eqn:Hid.
    + inversion H; subst. rewrite Nat.sub_diag. simpl.
      split; [lia|]. split; [reflexivity|]. apply String.eqb_eq. exact Hid.
    + apply IH in H. destruct H as (Hle & Hn & He).
      split; [lia|]. split; [|exact He].
      replace (i - base)%nat with (S (i - S base)) by lia. exact Hn.
Qed.

Lemma update_at_length : forall f es i, List.length (update_at i f es) = List.length es.
Proof.
  intros f es. induction es as [|a rest IH]; intros [|j]; simpl; auto.
Qed.

Lemma update_at_same : forall f es i e,
  nth_error es i = Some e -> nth_error (update_at i f es) i = Some (f e).
Proof.
  intros f es. induction es as [|a rest IH]; intros [|j] e H; simpl in *;
    try discriminate.
  - congruence.
  - apply IH. exact H.
Qed.

Lemma update_at_other : forall f es i j,
  j <> i -> nth_error (update_at i f es) j = nth_error es j.
Proof.
  intros f es. induction es as [|a rest IH]; intros [|i] [|j] H; simpl; auto;
    try congruence.
Qed.

(** C7: when the Edit window opened on [entry_id] is saved with an amount
    that reads as a number, the ledger keeps its length, the entry at the
    window's position keeps its ID and its date, and the entry at every
    other position is the one that was there. *)
Theorem save_changes_frame : forall entry_id st w0 st0 w new_amt,
  _open_edit_window entry_id st = (Ok (Some w0), st0) ->
  target w = target w0 ->
  float_of_string (amt_v w) = Some new_amt ->
  let st' := snd (save_changes w st0) in
  List.length (entries st') = List.length (entries st) /\
  (exists e e',
     nth_error (entries st) (target w) = Some e /\ ID e = entry_id /\
     nth_error (entries st') (target w) = Some e' /\
     ID e' = ID e /\ Date e' = Date e) /\
  (forall j, j <> target w -> nth_error (entries st') j = nth_error (entries st) j).
Proof.
  intros entry_id st w0 st0 w new_amt Hopen Htgt Hamt.
  unfold _open_edit_window in Hopen. unfold bind, get in Hopen.
  destruct (find_entry entry_id 0 (entries st)) as [[i e]|] eqn:Hfind.
  2:{ unfold show, modify, ret in Hopen. discriminate Hopen. }
  unfold ret in Hopen. inversion Hopen; subst st0 w0. clear Hopen.
  simpl in Htgt.
  apply find_entry_nth in Hfind. destruct Hfind as (_ & Hn & Hid).
  rewrite Nat.sub_0_r in Hn. rewrite <- Htgt in Hn.
  rewrite save_changes_unfold, Hamt. cbv zeta.
  match goal with |- context [_populate_tree None ?s] =>
    pose proof (populate_tree_frame None s) as F end.
  destruct F as (Fe & _). rewrite Fe. simpl.
  split; [apply update_at_length|]. split.
  - exists e, (assign_fields w new_amt e).
    split; [exact Hn|]. split; [exact Hid|].
    split; [apply update_at_same; exact Hn|]. split; reflexivity.
  - intros j Hj. apply update_at_other. exact Hj.
Qed.

Lemma save_changes_frame_witness :
  _open_edit_window "b" sample_app
    = (Ok (Some (mkEdit 1 "Gift" "3.0" "Income" "")), sample_app) /\
  float_of_string (amt_v (mkEdit 1 "Prize" "4.5" "Income" "won")) = Some 4.5%float /\
  let st' := snd (save_changes (mkEdit 1 "Prize" "4.5" "Income" "won") sample_app) in
  List.length (entries st') = List.length (entries sample_app) /\
  (exists e e',
     nth_error (entries sample_app) 1 = Some e /\ ID e = "b" /\
     nth_error (entries st') 1 = Some e' /\
     ID e' = ID e /\ Date e' = Date e) /\
  (forall j, j <> 1%nat -> nth_error (entries st') j = nth_error (entries sample_app) j).
Proof.
  assert (Ho : _open_edit_window "b" sample_app
               = (Ok (Some (mkEdit 1 "Gift" "3.0" "Income" "")), sample_app))
    by (vm_compute; reflexivity).
  assert (Ha : float_of_string (amt_v (mkEdit 1 "Prize" "4.5" "Income" "won")) = Some 4.5%float)
    by (vm_compute; reflexivity).
  split; [exact Ho|]. split; [exact Ha|].
  exact (save_changes_frame "b" sample_app _ _ (mkEdit 1 "Prize" "4.5" "Income" "won")
           4.5%float Ho eq_refl Ha).
Defined.

(** ** The month filter *)

Lemma digit_not_space : forall c, is_digit c = true -> is_space c = false.
Proof.
  intros c. unfold is_digit, is_space. cbv zeta.
  generalize (Z.of_N (N_of_ascii c)). intros n H.
  apply andb_true_iff in H. destruct H as [H1 H2].
  apply Z.leb_le in H1. apply Z.leb_le in H2.
  apply orb_false_iff. split; apply andb_false_iff.
  - right. apply Z.leb_gt. lia.
  - right. apply Z.leb_gt. lia.
Qed.

Lemma strip_yyyymm : forall m, is_yyyymm m = true -> strip m = m /\ is_empty m = false.
Proof.
  intros m H. unfold is_yyyymm in H.
  destruct m as [|y1 [|y2 [|y3 [|y4 [|d [|m1 [|m2 [|x r]]]]]]]]; try discriminate H.
  do 6 (apply andb_true_iff in H; destruct H as [H ?]).
  unfold strip. simpl.
  rewrite (digit_not_space y1) by assumption. simpl.
  rewrite (digit_not_space m2) by assumption. split; reflexivity.
Qed.

Lemma filter_subseq : forall (A : Type) (p : A -> bool) (l : list A),
  subseq (filter p l) l.
Proof.
  intros A p l. induction l as [|a l IH]; simpl.
  - constructor.
  - destruct (p a); constructor; exact IH.
Qed.

(** C6: for a month [m] written [YYYY-MM], the filter keeps exactly the
    entries whose date starts with [m], in their order, and shows them in
    the tree (an empty tree when there is none); the entries of the ledger
    and the file stay as they were. *)
Theorem apply_filter_month : forall m st,
  is_yyyymm m = true ->
  let shown := month_filter m (entries st) in
  let st' := snd (apply_filter m st) in
  subseq shown (entries st) /\
  (forall e, In e shown <-> In e (entries st) /\ String.prefix m (Date e) = true) /\
  (forall ls, tree_lines shown = Ok ls ->
              fst (apply_filter m st) = Ok tt /\ tree st' = ls) /\
  (shown = [] -> tree st' = []) /\
  entries st' = entries st /\ file st' = file st.
Proof.
  intros m st Hm. cbv zeta.
  destruct (strip_yyyymm m Hm) as [Hs He].
  assert (Hrun : apply_filter m st =
            _populate_tree (Some (month_filter m (entries st)))
              (match month_filter m (entries st) with
               | [] => add_dialog (showinfo "No Data" ("No records for " ++ m)) st
               | _ => st
               end)).
  { unfold apply_filter. rewrite Hs, He. unfold bind, get.
    destruct (month_filter m (entries st)); reflexivity. }
  assert (Hlines : forall s ls, tree_lines (month_filter m (entries st)) = Ok ls ->
            _populate_tree (Some (month_filter m (entries st))) s
            = (Ok tt, set_tree ls s)).
  { intros s ls Hls. unfold _populate_tree. unfold bind, modify, get.
    rewrite tree_insert_all_lines, Hls. destruct s; reflexivity. }
  split; [apply filter_subseq|]. split.
  { intros e. unfold month_filter. rewrite filter_In. reflexivity. }
  split.
  { intros ls Hls. rewrite Hrun, (Hlines _ ls Hls). split; reflexivity. }
  split.
  { intros Hnil. rewrite Hrun, (Hlines _ []) by (rewrite Hnil; reflexivity).
    reflexivity. }
  rewrite Hrun.
  match goal with |- context [_populate_tree ?a ?s] =>
    pose proof (populate_tree_frame a s) as F end.
  destruct F as (Fe & _ & Ff & _). rewrite Fe, Ff.
  destruct (month_filter m (entries st)); split; reflexivity.
Qed.

Lemma apply_filter_month_witness :
  is_yyyymm "2024-03" = true /\
  let shown := month_filter "2024-03" (entries sample_app) in
  let st' := snd (apply_filter "2024-03" sample_app) in
  subseq shown (entries sample_app) /\
  (forall e, In e shown <->
             In e (entries sample_app) /\ String.prefix "2024-03" (Date e) = true) /\
  (forall ls, tree_lines shown = Ok ls ->
              fst (apply_filter "2024-03" sample_app) = Ok tt /\ tree st' = ls) /\
  (shown = [] -> tree st' = []) /\
  entries st' = entries sample_app /\ file st' = file sample_app.
Proof.
  split; [reflexivity|].
  apply (apply_filter_month "2024-03" sample_app). reflexivity.
Defined.

(** ** [sum] *)

Lemma readable_sum : forall es acc, readable es -> exists t, sum_amounts acc es = Ok t.
Proof.
  induction es as [|e es IH]; intros acc H; simpl.
  - eauto.
  - inversion H as [|? ? [x Hx] Hes]; subst. rewrite Hx. apply IH. exact Hes.
Qed.

Lemma readable_sum_compensated : forall es acc c,
  readable es -> exists t, sum_amounts_compensated acc c es = Ok t.
Proof.
  induction es as [|e es IH]; intros acc c H; simpl.
  - eauto.
  - inversion H as [|? ? [x Hx] Hes]; subst. rewrite Hx. apply IH. exact Hes.
Qed.

(** [sum] returns on amounts that can be read, on either interpreter. *)
Lemma readable_py_sum : forall es, readable es -> exists t, py_sum es = Ok t.
Proof.
  intros es H. unfold py_sum, builtin_sum. destruct compensated.
  - destruct H as [|e es [x Hx] Hes]; [eauto|].
    rewrite Hx. apply readable_sum_compensated. exact Hes.
  - apply readable_sum. exact H.
Qed.

(** ** Totals *)

Lemma sum_amounts_app : forall A B acc,
  sum_amounts acc (A ++ B) =
  match sum_amounts acc A with
  | Ok a => sum_amounts a B
  | Raise err => Raise err
  end.
Proof.
  induction A as [|e A IH]; intros B acc; simpl.
  - reflexivity.
  - destruct (amount_float (Amount e)) as [x|err]; [apply IH|reflexivity].
Qed.








(** ** The category breakdown *)

Lemma dict_get_set_same : forall d k v, dict_get (dict_set d k v) k = Some v.
Proof.
  induction d as [|[k' v'] d IH]; intros k v; simpl.
  - rewrite String.eqb_refl. reflexivity.
  - destruct (String.eqb k' k) eqn:Hk; simpl; rewrite Hk; [reflexivity|apply IH].
Qed.

Lemma dict_get_set_other : forall d k v k',
  k' <> k -> dict_get (dict_set d k v) k' = dict_get d k'.
Proof.
  induction d as [|[k0 v0] d IH]; intros k v k' Hne; simpl.
  - destruct (String.eqb_spec k k'); [congruence|reflexivity].
  - destruct (String.eqb_spec k0 k) as [->|Hk0]; simpl.
    + destruct (String.eqb_spec k k'); [congruence|reflexivity].
    + destruct (String.eqb k0 k'); [reflexivity|apply IH; exact Hne].
Qed.

(** The loop of [show_chart], one category at a time: what the dict holds
    for [c] at the end is what it held, with the amounts of the expenses of
    [c] added on in their order. *)
Lemma chart_categories_get : forall use d0 d c,
  chart_categories d0 use = Ok d ->
  match filter (expense_of c) use with
  | [] => dict_get d c = dict_get d0 c
  | es =>
      exists t,
        sum_amounts (match dict_get d0 c with Some v => v | None => 0%float end) es = Ok t /\
        dict_get d c = Some t
  end.
Proof.
  induction use as [|e rest IH]; intros d0 d c H; simpl in H.
  - inversion H. reflexivity.
  - simpl. unfold expense_of at 1.
    destruct (has_type "Expense" e) eqn:Ht; simpl.
    2:{ apply IH. exact H. }
    destruct (amount_float (Amount e)) as [x|err] eqn:Hx; [|discriminate H].
    specialize (IH _ _ c H).
    destruct (String.eqb_spec (Category e) c) as [Hc|Hc].
    + subst c. rewrite dict_get_set_same in IH. simpl. rewrite Hx.
      destruct (filter (expense_of (Category e)) rest) as [|e1 es1].
      * eexists. split; [reflexivity|exact IH].
      * exact IH.
    + rewrite dict_get_set_other in IH by congruence. exact IH.
Qed.

Lemma chart_categories_total : forall use d0,
  readable (filter (has_type "Expense") use) ->
  exists d, chart_categories d0 use = Ok d.
Proof.
  induction use as [|e rest IH]; intros d0 Hr; simpl in *.
  - eauto.
  - destruct (has_type "Expense" e); [|apply IH; exact Hr].
    inversion Hr as [|? ? [x Hx] Hrest]; subst. rewrite Hx. apply IH. exact Hrest.
Qed.

Lemma chart_categories_no_expense : forall use d0,
  filter (has_type "Expense") use = [] -> chart_categories d0 use = Ok d0.
Proof.
  induction use as [|e rest IH]; intros d0 H; simpl in *.
  - reflexivity.
  - destruct (has_type "Expense" e); [discriminate H|apply IH; exact H].
Qed.

(** C5: when the amounts of the expenses can be read (as they can in every
    window the program reaches, see [reachable_readable]), the breakdown is
    computed, and for every category [c] it holds the sum of the amounts of
    the expenses of [c], or nothing when [c] has no expense (so a category
    with income only is absent); without any expense it is empty. *)
Theorem category_breakdown_sums : forall use,
  readable (filter (has_type "Expense") use) ->
  exists d,
    chart_categories [] use = Ok d /\
    (forall c,
       match filter (expense_of c) use with
       | [] => dict_get d c = None
       | es => exists t, sum_amounts 0 es = Ok t /\ dict_get d c = Some t
       end) /\
    (filter (has_type "Expense") use = [] -> d = []).
Proof.
  intros use Hr. destruct (chart_categories_total use [] Hr) as [d Hd].
  exists d. split; [exact Hd|]. split.
  - intros c. exact (chart_categories_get use [] d c Hd).
  - intros Hnone. rewrite chart_categories_no_expense in Hd by exact Hnone.
    inversion Hd. reflexivity.
Qed.

Lemma category_breakdown_sums_witness :
  readable (filter (has_type "Expense") (entries sample_app)) /\
  exists d,
    chart_categories [] (entries sample_app) = Ok d /\
    (forall c,
       match filter (expense_of c) (entries sample_app) with
       | [] => dict_get d c = None
       | es => exists t, sum_amounts 0 es = Ok t /\ dict_get d c = Some t
       end) /\
    (filter (has_type "Expense") (entries sample_app) = [] -> d = []).
Proof.
  assert (H : readable (filter (has_type "Expense") (entries sample_app))).
  { repeat constructor; eexists; reflexivity. }
  split; [exact H|].
  exact (category_breakdown_sums (entries sample_app) H).
Defined.

(** ** The format of the amounts in the file *)

(** C9 at its failing input: the window is started on the sample file, whose
    amounts all have two decimals, and entry ["b"] is deleted.  The file is
    rewritten with the amount of entry ["a"] as [12.5]. *)
Theorem rewrite_loses_two_decimals :
  file sample_app = sample_file /\
  match sample_file with
  | Some (_ :: rows) => forallb (fun r => two_decimals (nth 3 r "")) rows = true
  | _ => False
  end /\
  file (snd (_on_delete_selected (Some "b") true sample_app))
    = Some [CSV_FIELDS;
            ["a"; "2024-03-01 10:00:00"; "Expense"; "12.5"; "Food"; "lunch"];
            ["c"; "2024-04-01 08:00:00"; "Expense"; "7.25"; "Bus"; ""]] /\
  two_decimals "12.5" = false.
Proof.
  repeat split; vm_compute; reflexivity.
Qed.
(** ** Digits written and read *)

Lemma digit_char_val : forall d, 0 <= d <= 9 ->
  digit_val (digit_char d) = d /\ is_digit (digit_char d) = true.
Proof.
  intros d Hd.
  assert (H : d = 0 \/ d = 1 \/ d = 2 \/ d = 3 \/ d = 4 \/ d = 5 \/ d = 6 \/ d = 7
              \/ d = 8 \/ d = 9) by lia.
  repeat (destruct H as [H|H]; [subst d; split; reflexivity|]).
  subst d; split; reflexivity.
Qed.

Lemma append_assoc : forall s1 s2 s3 : string, (s1 ++ s2) ++ s3 = s1 ++ (s2 ++ s3).
Proof.
  induction s1 as [|c s1 IH]; intros s2 s3; simpl; [reflexivity|].
  rewrite IH. reflexivity.
Qed.

Lemma append_nil_r : forall s : string, s ++ "" = s.
Proof.
  induction s as [|c s IH]; simpl; [reflexivity|]. rewrite IH. reflexivity.
Qed.

Lemma length_append : forall s1 s2 : string,
  String.length (s1 ++ s2) = (String.length s1 + String.length s2)%nat.
Proof.
  induction s1 as [|c s1 IH]; intros s2; simpl; [reflexivity|].
  rewrite IH. reflexivity.
Qed.

Lemma all_digits_app : forall s1 s2,
  all_digits (s1 ++ s2) = all_digits s1 && all_digits s2.
Proof.
  induction s1 as [|c s1 IH]; intros s2; simpl; [reflexivity|].
  rewrite IH, andb_assoc. reflexivity.
Qed.

Lemma digits_val_app : forall s1 s2 acc,
  digits_val acc (s1 ++ s2) = digits_val (digits_val acc s1) s2.
Proof.
  induction s1 as [|c s1 IH]; intros s2 acc; simpl; [reflexivity|]. apply IH.
Qed.

(** What [digits_aux] puts in front of [acc]: digits worth [n]. *)
Lemma digits_aux_spec : forall fuel n acc,
  0 <= n < 2 ^ Z.of_nat fuel -> (0 < fuel)%nat ->
  exists ds,
    digits_aux fuel n acc = ds ++ acc /\ all_digits ds = true /\
    is_empty ds = false /\
    forall a, digits_val a ds = a * 10 ^ Z.of_nat (String.length ds) + n.
Proof.
  induction fuel as [|f IH]; intros n acc Hn Hf; [lia|].
  simpl digits_aux.
  assert (Hmod : 0 <= n mod 10 <= 9) by (pose proof (Z.mod_pos_bound n 10); lia).
  destruct (digit_char_val _ Hmod) as [Hv Hd].
  destruct (Z.eqb_spec (n / 10) 0) as [Hq|Hq].
  - exists (String (digit_char (n mod 10)) "").
    split; [reflexivity|]. split; [cbn [all_digits]; rewrite Hd; reflexivity|].
    split; [reflexivity|].
    intros a. cbn [digits_val String.length]. rewrite Hv.
    change (Z.of_nat 1) with 1. rewrite Z.pow_1_r.
    pose proof (Z.div_mod n 10 ltac:(lia)). lia.
  - assert (Hn10 : 10 <= n).
    { destruct (Z_lt_le_dec n 10) as [Hlt|]; [|assumption].
      exfalso. apply Hq. apply Z.div_small. lia. }
    assert (Hf0 : (0 < f)%nat).
    { destruct f; [|lia]. simpl in Hn. lia. }
    assert (Hn' : 0 <= n / 10 < 2 ^ Z.of_nat f).
    { split; [apply Z.div_pos; lia|].
      apply Z.div_lt_upper_bound; [lia|].
      rewrite Nat2Z.inj_succ, Z.pow_succ_r in Hn by lia. lia. }
    destruct (IH (n / 10) (String (digit_char (n mod 10)) acc) Hn' Hf0)
      as (ds & E & Hall & Hne & Hval).
    exists (ds ++ String (digit_char (n mod 10)) "").
    rewrite E, append_assoc.
    split; [reflexivity|]. split.
    { rewrite all_digits_app, Hall. cbn [all_digits]. rewrite Hd. reflexivity. }
    split.
    { destruct ds; [discriminate Hne|reflexivity]. }
    intros a. rewrite digits_val_app, Hval. cbn [digits_val]. rewrite Hv.
    rewrite length_append. cbn [String.length].
    rewrite Nat2Z.inj_add. change (Z.of_nat 1) with 1.
    rewrite Z.pow_add_r by lia. rewrite Z.pow_1_r.
    pose proof (Z.div_mod n 10 ltac:(lia)). lia.
Qed.

Lemma digits_spec : forall n, 0 <= n ->
  all_digits (digits n) = true /\ is_empty (digits n) = false /\
  forall a, digits_val a (digits n) = a * 10 ^ Z.of_nat (String.length (digits n)) + n.
Proof.
  intros n Hn. unfold digits.
  destruct (digits_aux_spec (S (Z.to_nat (Z.log2 n))) n "") as (ds & E & H).
  - split; [assumption|].
    rewrite Nat2Z.inj_succ, Z2Nat.id by apply Z.log2_nonneg.
    destruct (Z.eq_dec n 0) as [->|Hn0]; [reflexivity|].
    apply Z.log2_spec. lia.
  - lia.
  - rewrite E, append_nil_r. exact H.
Qed.

Lemma fixed_digits_spec : forall w n acc,
  0 <= n ->
  exists ds,
    fixed_digits w n acc = ds ++ acc /\ all_digits ds = true /\
    String.length ds = w /\
    forall a, digits_val a ds = a * 10 ^ Z.of_nat w + n mod 10 ^ Z.of_nat w.
Proof.
  induction w as [|w IH]; intros n acc Hn.
  - exists "". repeat split; try reflexivity.
    intros a. cbn [digits_val]. change (10 ^ Z.of_nat 0) with 1.
    rewrite Z.mod_1_r. lia.
  - simpl fixed_digits.
    assert (Hmod : 0 <= n mod 10 <= 9) by (pose proof (Z.mod_pos_bound n 10); lia).
    destruct (digit_char_val _ Hmod) as [Hv Hd].
    assert (Hq : 0 <= n / 10) by (apply Z.div_pos; lia).
    destruct (IH (n / 10) (String (digit_char (n mod 10)) acc) Hq)
      as (ds & E & Hall & Hlen & Hval).
    exists (ds ++ String (digit_char (n mod 10)) "").
    rewrite E, append_assoc.
    split; [reflexivity|]. split.
    { rewrite all_digits_app, Hall. cbn [all_digits]. rewrite Hd. reflexivity. }
    split.
    { rewrite length_append, Hlen. cbn [String.length]. lia. }
    intros a. rewrite digits_val_app, Hval. cbn [digits_val]. rewrite Hv.
    rewrite Nat2Z.inj_succ, Z.pow_succ_r by lia.
    assert (Hp : 0 < 10 ^ Z.of_nat w) by (apply Z.pow_pos_nonneg; lia).
    rewrite Z.rem_mul_r by lia.
    lia.
Qed.

(** ** [float] on a plain decimal numeral *)

Lemma digit_not_c_space : forall c, is_digit c = true -> c_isspace c = false.
Proof.
  intros c. unfold is_digit, c_isspace. cbv zeta.
  intros H. apply andb_true_iff in H. destruct H as [H1 H2].
  apply Z.leb_le in H1. apply Z.leb_le in H2.
  apply orb_false_iff. split.
  - apply andb_false_iff. right. apply Z.leb_gt. lia.
  - apply Z.eqb_neq. lia.
Qed.

Lemma c_rstrip_digits : forall d, all_digits d = true -> c_rstrip d = d.
Proof.
  induction d as [|c d IH]; intros H; simpl in *; [reflexivity|].
  apply andb_true_iff in H. destruct H as [Hc Hd].
  rewrite (IH Hd). destruct d; [|reflexivity].
  rewrite (digit_not_c_space c Hc). reflexivity.
Qed.

Lemma c_rstrip_app : forall s1 s2,
  c_rstrip s2 = s2 -> is_empty s2 = false -> c_rstrip (s1 ++ s2) = s1 ++ s2.
Proof.
  induction s1 as [|c s1 IH]; intros s2 H2 Hne; simpl; [exact H2|].
  rewrite (IH s2 H2 Hne).
  destruct (s1 ++ s2) eqn:E; [|reflexivity].
  destruct s1; simpl in E; [subst s2; discriminate Hne|discriminate E].
Qed.

Lemma strip_underscores_plain : forall s prev,
  Ascii.eqb prev "_" = false -> no_underscore s = true ->
  strip_underscores prev s = Some s.
Proof.
  induction s as [|c s IH]; intros prev Hp H; simpl in *.
  - rewrite Hp. reflexivity.
  - apply andb_true_iff in H. destruct H as [Hc Hs].
    apply negb_true_iff in Hc. rewrite Hc, Hp. simpl.
    rewrite (IH c Hc Hs). reflexivity.
Qed.

Lemma no_underscore_app : forall s1 s2,
  no_underscore (s1 ++ s2) = no_underscore s1 && no_underscore s2.
Proof.
  induction s1 as [|c s1 IH]; intros s2; simpl; [reflexivity|].
  rewrite IH, andb_assoc. reflexivity.
Qed.

Lemma digit_not_underscore : forall c, is_digit c = true -> Ascii.eqb c "_" = false.
Proof.
  intros c H. destruct (Ascii.eqb_spec c "_") as [->|]; [discriminate H|reflexivity].
Qed.

Lemma digits_no_underscore : forall d, all_digits d = true -> no_underscore d = true.
Proof.
  induction d as [|c d IH]; intros H; simpl in *; [reflexivity|].
  apply andb_true_iff in H. destruct H as [Hc Hd].
  rewrite (digit_not_underscore c Hc), (IH Hd). reflexivity.
Qed.

Lemma span_digits_all : forall d, all_digits d = true -> span_digits d = (d, "").
Proof.
  induction d as [|c d IH]; intros H; simpl in *; [reflexivity|].
  apply andb_true_iff in H. destruct H as [Hc Hd].
  rewrite Hc, (IH Hd). reflexivity.
Qed.

Lemma span_digits_stop : forall d c r,
  all_digits d = true -> is_digit c = false ->
  span_digits (d ++ String c r) = (d, String c r).
Proof.
  induction d as [|a d IH]; intros c r H Hc; simpl in *.
  - rewrite Hc. reflexivity.
  - apply andb_true_iff in H. destruct H as [Ha Hd].
    rewrite Ha, (IH c r Hd Hc). reflexivity.
Qed.

(** A digit is neither a sign nor the start of [inf] or [nan]. *)
Lemma digit_first : forall c r, is_digit c = true ->
  split_sign (String c r) = (false, String c r) /\
  parse_inf_or_nan (String c r) = None.
Proof.
  intros c r H.
  destruct c as [[] [] [] [] [] [] [] []]; try discriminate H; split; reflexivity.
Qed.

Lemma parse_decimal_plain : forall d1 d2,
  all_digits d1 = true -> all_digits d2 = true -> is_empty d1 = false ->
  parse_decimal (d1 ++ "." ++ d2)
  = Some (digits_val (digits_val 0 d1) d2, Z.of_nat (String.length d2), 0).
Proof.
  intros d1 d2 H1 H2 Hne. unfold parse_decimal.
  change ("." ++ d2) with (String "." d2).
  rewrite (span_digits_stop d1 "." d2 H1 eq_refl).
  rewrite (span_digits_all d2 H2). rewrite Hne. reflexivity.
Qed.

(** [float] of [[-]d1.d2], for digit strings [d1] and [d2]. *)
Lemma float_of_plain_decimal : forall neg d1 d2,
  all_digits d1 = true -> all_digits d2 = true ->
  is_empty d1 = false -> is_empty d2 = false ->
  float_of_string (sign_string neg ++ d1 ++ "." ++ d2)
  = Some (with_sign neg
            (decimal_to_binary (digits_val (digits_val 0 d1) d2)
                               (Z.of_nat (String.length d2)) 0)).
Proof.
  intros neg d1 d2 H1 H2 Hn1 Hn2.
  destruct d1 as [|c1 r1]; [discriminate Hn1|].
  assert (Hc1 : is_digit c1 = true).
  { simpl in H1. apply andb_true_iff in H1. tauto. }
  set (body := String c1 r1 ++ "." ++ d2).
  assert (Hbody : body = String c1 (r1 ++ "." ++ d2)) by reflexivity.
  assert (Hstrip : c_strip (sign_string neg ++ body) = sign_string neg ++ body).
  { unfold c_strip.
    assert (Hl : c_lstrip (sign_string neg ++ body) = sign_string neg ++ body).
    { destruct neg; simpl; [reflexivity|].
      rewrite (digit_not_c_space c1 Hc1). reflexivity. }
    rewrite Hl. unfold body. rewrite <- !append_assoc.
    apply c_rstrip_app; [apply c_rstrip_digits; exact H2|exact Hn2]. }
  assert (Hus : no_underscore (sign_string neg ++ body) = true).
  { unfold body. rewrite !no_underscore_app.
    rewrite (digits_no_underscore _ H1), (digits_no_underscore _ H2).
    destruct neg; reflexivity. }
  unfold float_of_string. rewrite Hstrip.
  rewrite (strip_underscores_plain _ "000" eq_refl Hus).
  assert (Hsign : split_sign (sign_string neg ++ body) = (neg, body)).
  { destruct neg; simpl; [reflexivity|].
    rewrite Hbody. apply (digit_first c1 _ Hc1). }
  rewrite Hsign.
  rewrite Hbody at 1. rewrite (proj2 (digit_first c1 _ Hc1)).
  unfold body. rewrite (parse_decimal_plain _ _ H1 H2 eq_refl). reflexivity.
Qed.

(** ** Rounding a number that is a binary64 number *)

Lemma digits2_size : forall p, digits2_pos p = Pos.size p.
Proof.
  induction p as [p IH|p IH|]; simpl; [rewrite IH|rewrite IH|]; reflexivity.
Qed.

Lemma digits2_log2 : forall p, Zpos (digits2_pos p) = Z.log2 (Zpos p) + 1.
Proof.
  intros p. rewrite digits2_size.
  destruct p as [p|p|]; simpl; try rewrite Pos.add_1_r; reflexivity.
Qed.

Lemma scale_exact : forall n d m e e',
  0 < d -> exact_ratio n d m e -> e' <= e ->
  0 < snd (scale n d e') /\
  fst (scale n d e') = m * 2 ^ (e - e') * snd (scale n d e').
Proof.
  intros n d m e e' Hd Hex Hle. unfold exact_ratio in Hex. unfold scale.
  destruct (Z.leb_spec 0 e') as [He'|He']; simpl.
  - rewrite (Z.max_l 0 (- e)), (Z.max_r 0 e), Z.pow_0_r, Z.mul_1_r in Hex by lia.
    split; [apply Z.mul_pos_pos; [lia|apply Z.pow_pos_nonneg; lia]|].
    rewrite Hex. replace e with ((e - e') + e') at 1 by lia.
    rewrite Z.pow_add_r by lia. ring.
  - split; [exact Hd|].
    destruct (Z.leb_spec 0 e) as [He|He].
    + rewrite (Z.max_l 0 (- e)), (Z.max_r 0 e), Z.pow_0_r, Z.mul_1_r in Hex by lia.
      rewrite Hex. replace (e - e') with (e + - e') by lia.
      rewrite Z.pow_add_r by lia. ring.
    + rewrite (Z.max_r 0 (- e)), (Z.max_l 0 e), Z.pow_0_r, Z.mul_1_r in Hex by lia.
      replace (- e') with (- e + (e - e')) by lia.
      rewrite Z.pow_add_r by lia. rewrite Z.mul_assoc, Hex. ring.
Qed.

Lemma log2_exact_ratio : forall n d m e,
  0 < n -> 0 < d -> 0 < m -> exact_ratio n d m e ->
  Z.log2 m + e <= Z.log2 n - Z.log2 d <= Z.log2 m + e + 1.
Proof.
  intros n d m e Hn Hd Hm Hex. unfold exact_ratio in Hex.
  assert (Hl : Z.log2 (n * 2 ^ Z.max 0 (- e)) = Z.max 0 (- e) + Z.log2 n)
    by (apply Z.log2_mul_pow2; lia).
  assert (Hr : Z.log2 (m * d * 2 ^ Z.max 0 e) = Z.max 0 e + Z.log2 (m * d)).
  { apply Z.log2_mul_pow2; [|lia]. apply Z.mul_pos_pos; assumption. }
  rewrite Hex, Hr in Hl.
  pose proof (Z.log2_mul_below m d Hm Hd).
  pose proof (Z.log2_mul_above m d ltac:(lia) ltac:(lia)).
  lia.
Qed.

(** The rounding of [n / d] when it is the binary64 number [m * 2^e]. *)
Lemma binary_of_ratio_exact : forall n d m e,
  0 < n -> 0 < d ->
  bounded prec emax m e = true ->
  exact_ratio n d (Zpos m) e ->
  binary_of_ratio n d = S754_finite false m e.
Proof.
  intros n d m e Hn Hd Hb Hex.
  unfold bounded, canonical_mantissa in Hb.
  apply andb_true_iff in Hb. destruct Hb as [Hcan Hemax].
  apply Z.eqb_eq in Hcan. apply Z.leb_le in Hemax.
  unfold fexp, SpecFloat.emin, prec, emax in Hcan, Hemax.
  rewrite digits2_log2 in Hcan.
  pose proof (log2_exact_ratio n d (Zpos m) e Hn Hd eq_refl Hex) as Hlog.
  pose proof (Z.log2_spec (Zpos m) eq_refl) as [Hlo Hhi].
  pose proof (Z.log2_nonneg (Zpos m)) as Hl0.
  set (l := Z.log2 (Zpos m)) in *.
  assert (Hl52 : l <= 52) by lia.
  assert (Hm53 : Zpos m < 2 ^ 53).
  { eapply Z.lt_le_trans; [exact Hhi|]. apply Z.pow_le_mono_r; lia. }
  unfold binary_of_ratio.
  set (e1 := Z.max (-1074) (Z.log2 n - Z.log2 d - 53)).
  assert (He1 : e1 = e \/ (e1 = e - 1 /\ 2 ^ 52 <= Zpos m)).
  { destruct (Z.eq_dec l 52) as [E|E].
    - rewrite E in Hlo. change (2 ^ 52) with 4503599627370496 in *.
      subst e1. lia.
    - left. subst e1. lia. }
  destruct (scale_exact n d (Zpos m) e e1 Hd Hex ltac:(lia)) as [HD1 HN1].
  destruct (scale n d e1) as [N1 D1]. cbn [fst snd] in HD1, HN1.
  assert (Hq1 : N1 / D1 = Zpos m * 2 ^ (e - e1)).
  { rewrite HN1. apply Z.div_mul. lia. }
  rewrite Hq1.
  assert (He2 : (if 2 ^ 53 <=? Zpos m * 2 ^ (e - e1) then e1 + 1 else e1) = e).
  { destruct He1 as [->|[-> Hm52]].
    - rewrite Z.sub_diag, Z.pow_0_r, Z.mul_1_r.
      destruct (Z.leb_spec (2 ^ 53) (Zpos m)); lia.
    - replace (e - (e - 1)) with 1 by lia. rewrite Z.pow_1_r.
      change (2 ^ 53) with 9007199254740992 in *.
      change (2 ^ 52) with 4503599627370496 in *.
      destruct (Z.leb_spec 9007199254740992 (Zpos m * 2)); lia. }
  rewrite He2.
  destruct (scale_exact n d (Zpos m) e e Hd Hex ltac:(lia)) as [HD2 HN2].
  destruct (scale n d e) as [N2 D2]. cbn [fst snd] in HD2, HN2.
  rewrite Z.sub_diag, Z.pow_0_r, Z.mul_1_r in HN2.
  assert (Hr : round_nearest_even N2 D2 = Zpos m).
  { unfold round_nearest_even. rewrite HN2, Z.mod_mul, Z.div_mul by lia.
    simpl (2 * 0). destruct (Z.compare_spec 0 D2); lia. }
  rewrite Hr.
  destruct (Z.eqb_spec (Zpos m) (2 ^ 53)) as [E|_]; [lia|].
  destruct (Z.ltb_spec 971 e); [lia|]. reflexivity.
Qed.

(** ** [repr] reads back *)

Lemma float_of_exact_decimal : forall neg m e,
  bounded prec emax m e = true ->
  float_of_string (exact_decimal neg (Zpos m) e)
  = Some (with_sign neg (S754_finite false m e)).
Proof.
  intros neg m e Hb. unfold exact_decimal.
  destruct (Z.leb_spec 0 e) as [He|He].
  - assert (Hv : 0 < Zpos m * 2 ^ e).
    { apply Z.mul_pos_pos; [reflexivity|apply Z.pow_pos_nonneg; lia]. }
    destruct (digits_spec (Zpos m * 2 ^ e) ltac:(lia)) as (Hall & Hne & Hval).
    change (digits (Zpos m * 2 ^ e) ++ ".0")
      with (digits (Zpos m * 2 ^ e) ++ "." ++ "0").
    rewrite (float_of_plain_decimal neg _ "0" Hall eq_refl Hne eq_refl).
    rewrite Hval. cbn [digits_val String.length].
    change (digit_val "0") with 0. change (Z.of_nat 1) with 1.
    rewrite Z.mul_0_l, Z.add_0_l, Z.add_0_r.
    unfold decimal_to_binary.
    destruct (Z.eqb_spec (10 * (Zpos m * 2 ^ e)) 0) as [E|_]; [lia|].
    change (0 <=? 0 - 1) with false. cbv iota.
    change (- (0 - 1)) with 1. rewrite Z.pow_1_r.
    rewrite (binary_of_ratio_exact _ 10 m e); [reflexivity|lia|lia|exact Hb|].
    unfold exact_ratio. rewrite (Z.max_l 0 (- e)), (Z.max_r 0 e) by lia.
    rewrite Z.pow_0_r. ring.
  - set (w := - e). assert (Hw : 0 < w) by (unfold w; lia).
    set (c := Zpos m * 5 ^ w). set (q := 10 ^ w).
    assert (Hq : 0 < q) by (apply Z.pow_pos_nonneg; lia).
    assert (Hc : 0 < c).
    { apply Z.mul_pos_pos; [reflexivity|apply Z.pow_pos_nonneg; lia]. }
    assert (Hcq : 0 <= c / q) by (apply Z.div_pos; lia).
    destruct (digits_spec (c / q) Hcq) as (Hall & Hne & Hval).
    pose proof (Z.mod_pos_bound c q Hq) as Hmod.
    destruct (fixed_digits_spec (Z.to_nat w) (c mod q) "" ltac:(lia))
      as (ds & E & Hdall & Hlen & Hdval).
    rewrite E, append_nil_r.
    assert (Hdne : is_empty ds = false).
    { destruct ds; [|reflexivity]. simpl in Hlen. lia. }
    rewrite (float_of_plain_decimal neg _ ds Hall Hdall Hne Hdne).
    rewrite Hdval, Hval, Hlen, Z2Nat.id by lia.
    fold q. rewrite Z.mul_0_l, Z.add_0_l, Z.mod_mod by lia.
    replace (c / q * q + c mod q) with c
      by (pose proof (Z.div_mod c q ltac:(lia)); lia).
    unfold decimal_to_binary.
    destruct (Z.eqb_spec c 0) as [E0|_]; [lia|].
    destruct (Z.leb_spec 0 (0 - w)) as [Hk|_]; [lia|].
    replace (- (0 - w)) with w by lia. fold q.
    rewrite (binary_of_ratio_exact c q m e); [reflexivity|lia|lia|exact Hb|].
    unfold exact_ratio. rewrite (Z.max_r 0 (- e)), (Z.max_l 0 e) by lia.
    fold w. unfold c, q. rewrite Z.pow_0_r.
    replace 10 with (5 * 2) by reflexivity. rewrite Z.pow_mul_l. ring.
Qed.

(** [float(repr(x))] is [x], for every float [x]. *)
Lemma float_repr_reads_back : forall x, float_of_string (float_repr x) = Some x.
Proof.
  intros x.
  pose proof (Prim2SF_valid x) as Hvalid.
  pose proof (SF2Prim_Prim2SF x) as Hx.
  unfold float_repr.
  destruct (Prim2SF x) as [s|s| |s m e].
  - rewrite <- Hx. destruct s; vm_compute; reflexivity.
  - rewrite <- Hx. destruct s; vm_compute; reflexivity.
  - rewrite <- Hx. vm_compute. reflexivity.
  - destruct (scale (Zpos m) 1 (- e)) as [n d].
    destruct (find (reads_back x) (repr_candidates s n d)) as [str|] eqn:F.
    + apply find_some in F. destruct F as [_ F]. unfold reads_back in F.
      destruct (float_of_string str) as [y|]; [|discriminate F].
      apply FloatAxioms.Leibniz.eqb_spec in F. rewrite F. reflexivity.
    + rewrite (float_of_exact_decimal s m e Hvalid). rewrite <- Hx.
      destruct s; reflexivity.
Qed.

(** ** Reading back what was written *)

Lemma read_rows_cons : forall r rest es,
  read_rows (r :: rest) = Ok es ->
  (r = [] /\ read_rows rest = Ok es) \/
  (exists i d t a c n x es',
     r = [i; d; t; a; c; n] /\ float_of_string a = Some x /\
     read_rows rest = Ok es' /\ es = mkEntry i d t (AFloat x) c n :: es').
Proof.
  intros r rest es H.
  destruct r as [|i [|d [|t [|a [|c [|n [|z r']]]]]]]; simpl in H;
    try discriminate H.
  - left. auto.
  - right. destruct (float_of_string a) as [x|] eqn:Ha; [|discriminate H].
    destruct (read_rows rest) as [es'|] eqn:Hr; [|discriminate H].
    inversion H; subst. exists i, d, t, a, c, n, x, es'. auto.
Qed.

Lemma read_rows_hold_floats : forall rows es,
  read_rows rows = Ok es -> Forall holds_float es.
Proof.
  induction rows as [|r rest IH]; intros es H.
  - inversion H. constructor.
  - apply read_rows_cons in H.
    destruct H as [[_ H]|(i & d & t & a & c & n & x & es' & _ & _ & H & ->)].
    + apply IH. exact H.
    + constructor; [exists x; reflexivity|apply IH; exact H].
Qed.

(** Entries that hold floats are read back as they are. *)
Lemma read_rows_written_floats : forall es,
  Forall holds_float es -> read_rows (map csv_row es) = Ok es.
Proof.
  induction 1 as [|e es [x Hx] _ IH]; simpl; [reflexivity|].
  destruct e as [i d t a c n]. simpl in Hx. subst a. simpl.
  rewrite float_repr_reads_back, IH. reflexivity.
Qed.



Lemma read_entries_written : forall es f,
  snd (read_entries (write_entries es f)) = read_rows (map csv_row es).
Proof.
  intros es f. unfold read_entries, write_entries. simpl.
  destruct (list_eq_dec string_dec CSV_FIELDS CSV_FIELDS) as [_|Hne];
    [reflexivity|contradiction].
Qed.

Lemma read_entries_hold_floats : forall f es,
  snd (read_entries f) = Ok es -> Forall holds_float es.
Proof.
  intros f es H. unfold read_entries in H. simpl in H.
  destruct (ensure_file f) as [[|header rows]|].
  - inversion H. constructor.
  - destruct (list_eq_dec string_dec header CSV_FIELDS).
    + apply (read_rows_hold_floats rows). exact H.
    + destruct (forallb _ rows); [inversion H; constructor|discriminate H].
  - inversion H. constructor.
Qed.

Lemma well_formed_rows_read : forall rows,
  forallb well_formed_row rows = true -> exists es, read_rows rows = Ok es.
Proof.
  induction rows as [|r rest IH]; intros H; simpl in H.
  - exists []. reflexivity.
  - apply andb_true_iff in H. destruct H as [Hr Hrest].
    destruct (IH Hrest) as [es Hes].
    destruct r as [|i [|d [|t [|a [|c [|n [|z r']]]]]]]; simpl in Hr;
      try discriminate Hr.
    + exists es. exact Hes.
    + simpl. destruct (float_of_string a) as [x|]; [|discriminate Hr].
      rewrite Hes. eauto.
Qed.

(** C8: a well-formed file is read; writing the entries read and reading
    again gives the same list, entry for entry and field for field. *)
Theorem read_write_read : forall f,
  well_formed f = true ->
  exists es,
    snd (read_entries f) = Ok es /\
    snd (read_entries (write_entries es (fst (read_entries f)))) = Ok es.
Proof.
  intros f Hwf.
  assert (Hread : exists es, snd (read_entries f) = Ok es).
  { unfold well_formed in Hwf. destruct f as [[|header rows]|]; try discriminate Hwf.
    apply andb_true_iff in Hwf. destruct Hwf as [Hh Hrows].
    unfold read_entries. simpl.
    destruct (list_eq_dec string_dec header CSV_FIELDS); [|discriminate Hh].
    apply well_formed_rows_read. exact Hrows. }
  destruct Hread as [es Hes]. exists es. split; [exact Hes|].
  rewrite read_entries_written. apply read_rows_written_floats.
  apply (read_entries_hold_floats f). exact Hes.
Qed.

Lemma read_write_read_witness :
  well_formed sample_file = true /\
  exists es,
    snd (read_entries sample_file) = Ok es /\
    snd (read_entries (write_entries es (fst (read_entries sample_file)))) = Ok es.
Proof.
  split; [vm_compute; reflexivity|].
  apply (read_write_read sample_file). vm_compute. reflexivity.
Defined.

(** ** Deleting *)

Lemma filter_id : forall (A : Type) (p : A -> bool) (l : list A),
  Forall (fun a => p a = true) l -> filter p l = l.
Proof.
  induction 1 as [|a l Ha _ IH]; simpl; [reflexivity|].
  rewrite Ha, IH. reflexivity.
Qed.

Lemma readable_filter : forall p es, readable es -> readable (filter p es).
Proof.
  intros p es H. unfold readable in *. rewrite Forall_forall in *.
  intros e He. apply filter_In in He. apply H. tauto.
Qed.




(** ** The amounts of a reachable window can be read *)

Lemma scale_pos : forall n d e, 0 <= n -> 0 < d ->
  0 <= fst (scale n d e) /\ 0 < snd (scale n d e).
Proof.
  intros n d e Hn Hd. unfold scale.
  destruct (Z.leb_spec 0 e) as [He|He]; cbn [fst snd].
  - split; [exact Hn|]. apply Z.mul_pos_pos; [exact Hd|].
    apply Z.pow_pos_nonneg; lia.
  - split; [|exact Hd]. apply Z.mul_nonneg_nonneg; [exact Hn|].
    apply Z.pow_nonneg. lia.
Qed.

Lemma round_nearest_even_nonneg : forall N D, 0 <= N -> 0 < D ->
  0 <= round_nearest_even N D.
Proof.
  intros N D HN HD. unfold round_nearest_even.
  assert (0 <= N / D) by (apply Z.div_pos; lia).
  destruct (2 * (N mod D) ?= D); [destruct (Z.even (N / D))| |]; lia.
Qed.

(** What [.2f] writes is a number for [float]. *)
Lemma format_2f_readable : forall x, exists y, float_of_string (format_2f x) = Some y.
Proof.
  intros x. unfold format_2f.
  destruct (Prim2SF x) as [s|s| |s m e].
  - destruct s; eexists; vm_compute; reflexivity.
  - destruct s; eexists; vm_compute; reflexivity.
  - eexists; vm_compute; reflexivity.
  - destruct (scale_pos (100 * Zpos m) 1 (- e) ltac:(lia) ltac:(lia)) as [HN HD].
    destruct (scale (100 * Zpos m) 1 (- e)) as [N D]. cbn [fst snd] in HN, HD.
    pose proof (round_nearest_even_nonneg N D HN HD) as Hc.
    set (c := round_nearest_even N D) in *.
    assert (Hq : 0 <= c / 100) by (apply Z.div_pos; lia).
    destruct (digits_spec (c / 100) Hq) as (Hall & Hne & _).
    pose proof (Z.mod_pos_bound c 100 ltac:(lia)) as Hm.
    assert (Htwo : all_digits (two_digits (c mod 100)) = true).
    { unfold two_digits. cbn [all_digits].
      assert (H1 : 0 <= c mod 100 / 10 <= 9).
      { split; [apply Z.div_pos; lia|].
        apply Z.lt_succ_r. apply Z.div_lt_upper_bound; lia. }
      assert (H2 : 0 <= (c mod 100) mod 10 <= 9)
        by (pose proof (Z.mod_pos_bound (c mod 100) 10 ltac:(lia)); lia).
      rewrite (proj2 (digit_char_val _ H1)), (proj2 (digit_char_val _ H2)).
      reflexivity. }
    eexists. apply (float_of_plain_decimal s _ _ Hall Htwo Hne). reflexivity.
Qed.

Lemma holds_float_readable : forall es, Forall holds_float es -> readable es.
Proof.
  intros es H. unfold readable. eapply Forall_impl; [|exact H].
  intros e [x Hx]. exists x. rewrite Hx. reflexivity.
Qed.

Lemma readable_app_one : forall es e,
  readable es -> (exists x, amount_float (Amount e) = Ok x) -> readable (es ++ [e])%list.
Proof.
  intros es e Hes He. unfold readable in *. apply Forall_app. split; [exact Hes|].
  constructor; [exact He|constructor].
Qed.

Lemma readable_update_at : forall f es i,
  readable es -> (forall e, exists x, amount_float (Amount (f e)) = Ok x) ->
  readable (update_at i f es).
Proof.
  intros f es. induction es as [|a rest IH]; intros i Hes Hf.
  - destruct i; constructor.
  - inversion Hes; subst. destruct i as [|j]; simpl.
    + constructor; [apply Hf|assumption].
    + constructor; [assumption|apply IH; assumption].
Qed.

Lemma amount_str_readable : forall x,
  exists y, amount_float (AStr (format_2f x)) = Ok y.
Proof.
  intros x. destruct (format_2f_readable x) as [y Hy]. exists y.
  simpl. rewrite Hy. reflexivity.
Qed.

Lemma bind_entries : forall (A B : Type) (c : M A) (k : A -> M B) (P : list entry -> Prop) st,
  P (entries (snd (c st))) ->
  (forall a st', P (entries st') -> P (entries (snd (k a st')))) ->
  P (entries (snd (bind c k st))).
Proof.
  intros A B c k P st Hc Hk. unfold bind.
  destruct (c st) as [[a|err] st']; simpl in *; [apply Hk; exact Hc|exact Hc].
Qed.

(** Every reachable window holds amounts that [float] reads. *)
Lemma reachable_readable : forall st, reachable st -> readable (entries st).
Proof.
  assert (Hload : forall st, readable (entries st) ->
                             readable (entries (snd (_load_entries st)))).
  { intros st Hr. unfold _load_entries. unfold bind, get.
    pose proof (read_entries_hold_floats (file st)) as Hf.
    destruct (read_entries (file st)) as [f r]. simpl in Hf.
    unfold modify, lift. destruct r as [es|err]; [|exact Hr].
    match goal with |- context [_populate_tree None ?s] =>
      pose proof (populate_tree_frame None s) as F end.
    destruct F as (Fe & _). rewrite Fe. simpl.
    apply holds_float_readable. apply Hf. reflexivity. }
  induction 1 as [f | st c a t n b _ IH | st _ IH | st uuid4 now _ IH
                  | st sel yes _ IH | st entry_id w0 st0 w _ IH Hopen Htgt
                  | st m _ IH | st _ IH | st _ IH | st _ IH].
  - apply (Hload (init_app f)). constructor.
  - exact IH.
  - apply Hload. exact IH.
  - rewrite add_entry_unfold. cbv zeta.
    destruct (is_empty _ || is_empty _); [exact IH|].
    destruct (float_of_string (strip (amount_var st))) as [amt_f|]; [|exact IH].
    match goal with |- context [_populate_tree None ?s] =>
      pose proof (populate_tree_frame None s) as F;
      destruct (_populate_tree None s) as [r st3] end.
    simpl in F. destruct F as (Fe & _).
    assert (H3 : readable (entries st3)).
    { rewrite Fe. apply readable_app_one; [exact IH|apply amount_str_readable]. }
    destruct r as [[]|err]; [|exact H3].
    simpl. destruct (budget st3); [|exact H3].
    destruct (String.eqb (type_var st) "Expense"); [|exact H3].
    destruct (py_sum _); [|exact H3].
    destruct (_ <? _)%float; exact H3.
  - rewrite on_delete_selected_unfold.
    destruct sel as [entry_id|]; [destruct yes|]; try exact IH.
    cbv zeta.
    match goal with |- context [_populate_tree None ?s] =>
      pose proof (populate_tree_frame None s) as F end.
    destruct F as (Fe & _). rewrite Fe. simpl. apply readable_filter. exact IH.
  - assert (H0 : entries st0 = entries st).
    { unfold _open_edit_window in Hopen. unfold bind, get in Hopen.
      destruct (find_entry entry_id 0 (entries st)) as [[i e]|];
        [|discriminate Hopen].
      unfold ret in Hopen. inversion Hopen. reflexivity. }
    rewrite save_changes_unfold.
    destruct (float_of_string (amt_v w)) as [new_amt|];
      [|simpl; rewrite H0; exact IH].
    cbv zeta.
    match goal with |- context [_populate_tree None ?s] =>
      pose proof (populate_tree_frame None s) as F end.
    destruct F as (Fe & _). rewrite Fe. simpl. rewrite H0.
    apply readable_update_at; [exact IH|].
    intros e. apply amount_str_readable.
  - unfold apply_filter. destruct (is_empty (strip m)); [exact IH|].
    unfold bind at 1. unfold get.
    apply bind_entries.
    + destruct (month_filter (strip m) (entries st)); exact IH.
    + intros _ st' H'.
      destruct (populate_tree_frame (Some (month_filter (strip m) (entries st))) st')
        as (Fe & _).
      rewrite Fe. exact H'.
  - unfold set_budget. unfold bind at 1. unfold get.
    destruct (is_empty (strip (budget_var st))); [exact IH|].
    destruct (float_of_string (strip (budget_var st))); exact IH.
  - unfold show_summary. unfold bind, get, lift.
    destruct (summary_totals (entries st)); exact IH.
  - unfold show_chart. unfold bind, get, lift.
    destruct (chart_categories [] (entries st)) as [[|p cs]|]; try exact IH.
    destruct (pyplot_pie _ _); exact IH.
Qed.

(** ** The file follows the ledger *)





(** A readable list is read back from its records, entry for entry. *)
Lemma read_rows_written_loaded : forall es,
  readable es ->
  exists es', read_rows (map csv_row es) = Ok es' /\ Forall2 loaded_as es es'.
Proof.
  induction 1 as [|e es [x Hx] _ (es' & Hr & Hl)]; simpl.
  - exists []. split; [reflexivity|constructor].
  - assert (Hc : float_of_string (amount_cell (Amount e)) = Some x).
    { destruct (Amount e) as [s|y]; simpl in *.
      - destruct (float_of_string s); [inversion Hx; reflexivity|discriminate Hx].
      - inversion Hx; subst. apply float_repr_reads_back. }
    rewrite Hc, Hr. eexists. split; [reflexivity|].
    constructor; [|exact Hl].
    unfold loaded_as. simpl. repeat split. exists x. auto.
Qed.


Lemma apply_filter_unfold : forall month_v st,
  apply_filter month_v st =
  let m := strip month_v in
  if is_empty m then
    (Ok tt, add_dialog (showerror "Input Error" "Please enter month in format YYYY-MM") st)
  else
    _populate_tree (Some (month_filter m (entries st)))
      (match month_filter m (entries st) with
       | [] => add_dialog (showinfo "No Data" ("No records for " ++ m)) st
       | _ => st
       end).
Proof.
  intros month_v st. unfold apply_filter. cbv zeta.
  destruct (is_empty (strip month_v)); [reflexivity|].
  unfold bind, get. destruct (month_filter (strip month_v) (entries st)); reflexivity.
Qed.

(** The callbacks that only show something. *)
Lemma view_frame : forall st,
  (forall m, entries (snd (apply_filter m st)) = entries st /\
             file (snd (apply_filter m st)) = file st) /\
  (entries (snd (set_budget st)) = entries st /\
   file (snd (set_budget st)) = file st) /\
  (entries (snd (show_summary None st)) = entries st /\
   file (snd (show_summary None st)) = file st) /\
  (entries (snd (show_chart None st)) = entries st /\
   file (snd (show_chart None st)) = file st).
Proof.
  intros st. split; [|split; [|split]].
  - intros m. rewrite apply_filter_unfold. cbv zeta.
    destruct (is_empty (strip m)); [split; reflexivity|].
    match goal with |- context [_populate_tree ?a ?s] =>
      destruct (populate_tree_frame a s) as (Fe & _ & Ff & _) end.
    rewrite Fe, Ff. destruct (month_filter (strip m) (entries st)); split; reflexivity.
  - unfold set_budget, bind, get. destruct (is_empty _); [split; reflexivity|].
    destruct (float_of_string _); split; reflexivity.
  - unfold show_summary, bind, get, lift.
    destruct (summary_totals _); split; reflexivity.
  - unfold show_chart, bind, get, lift.
    destruct (chart_categories [] (entries st)) as [[|p cs]|]; try (split; reflexivity).
    destruct (pyplot_pie _ _); split; reflexivity.
Qed.


Lemma load_entries_unfold : forall st,
  _load_entries st =
  match snd (read_entries (file st)) with
  | Ok es =>
      _populate_tree None (set_entries es (set_file (fst (read_entries (file st))) st))
  | Raise err => (Raise err, set_file (fst (read_entries (file st))) st)
  end.
Proof.
  intros st. unfold _load_entries. unfold bind at 1. unfold get.
  destruct (read_entries (file st)) as [f [es|err]]; reflexivity.
Qed.

(** What [add_entry] does to the ledger and the file: nothing, or one entry
    more at the end of both. *)
Lemma add_entry_ledger : forall uuid4 now st,
  let st' := snd (add_entry uuid4 now st) in
  (entries st' = entries st /\ file st' = file st) \/
  (exists x,
     float_of_string (strip (amount_var st)) = Some x /\
     is_empty (strip (category_var st)) = false /\
     let e := mkEntry uuid4 now (type_var st) (AStr (format_2f x))
                      (strip (category_var st)) (strip (note_var st)) in
     entries st' = (entries st ++ [e])%list /\ file st' = append_entry e (file st)).
Proof.
  intros uuid4 now st. cbv zeta. rewrite add_entry_unfold. cbv zeta.
  destruct (is_empty (strip (category_var st))) eqn:Hc; [left; split; reflexivity|].
  simpl orb.
  destruct (is_empty (strip (amount_var st))); [left; split; reflexivity|].
  destruct (float_of_string (strip (amount_var st))) as [x|];
    [|left; split; reflexivity].
  right. exists x. split; [reflexivity|]. split; [reflexivity|].
  match goal with |- context [_populate_tree None ?s] =>
    pose proof (populate_tree_frame None s) as F;
    destruct (_populate_tree None s) as [r st3] end.
  simpl in F. destruct F as (Fe & _ & Ff & _).
  destruct r as [[]|err]; [|split; assumption].
  simpl. destruct (budget st3); [|split; assumption].
  destruct (String.eqb (type_var st) "Expense"); [|split; assumption].
  destruct (py_sum _); [|split; assumption].
  destruct (_ <? _)%float; split; assumption.
Qed.

Lemma delete_ledger : forall sel yes st,
  let st' := snd (_on_delete_selected sel yes st) in
  (entries st' = entries st /\ file st' = file st) \/
  (exists entry_id,
     sel = Some entry_id /\ yes = true /\
     entries st' = filter (fun e => negb (String.eqb (ID e) entry_id)) (entries st) /\
     file st' = write_entries (entries st') (file st)).
Proof.
  intros sel yes st. cbv zeta. rewrite on_delete_selected_unfold.
  destruct sel as [entry_id|]; [destruct yes|]; try (left; split; reflexivity).
  right. exists entry_id. split; [reflexivity|]. split; [reflexivity|]. cbv zeta.
  match goal with |- context [_populate_tree None ?s] =>
    destruct (populate_tree_frame None s) as (Fe & _ & Ff & _) end.
  rewrite Fe, Ff. split; reflexivity.
Qed.

Lemma save_ledger : forall w st,
  let st' := snd (save_changes w st) in
  (entries st' = entries st /\ file st' = file st) \/
  (exists x,
     float_of_string (amt_v w) = Some x /\
     entries st' = update_at (target w) (assign_fields w x) (entries st) /\
     file st' = write_entries (entries st') (file st)).
Proof.
  intros w st. cbv zeta. rewrite save_changes_unfold.
  destruct (float_of_string (amt_v w)) as [x|]; [|left; split; reflexivity].
  right. exists x. split; [reflexivity|]. cbv zeta.
  match goal with |- context [_populate_tree None ?s] =>
    destruct (populate_tree_frame None s) as (Fe & _ & Ff & _) end.
  rewrite Fe, Ff. split; reflexivity.
Qed.





(** ** A successful add *)

Lemma populate_tree_lines : forall arg st ls,
  tree_lines (match arg with Some es => es | None => entries st end) = Ok ls ->
  _populate_tree arg st = (Ok tt, set_tree ls st).
Proof.
  intros arg st ls H. unfold _populate_tree. unfold bind, modify, get.
  rewrite tree_insert_all_lines. simpl entries. rewrite H.
  destruct st; reflexivity.
Qed.


(** ** The amounts that add and edit store *)





(** ** A file without header *)



(** ** Opening the Edit window *)

Lemma find_entry_none : forall entry_id es i,
  find_entry entry_id i es = None -> ~ In entry_id (map ID es).
Proof.
  intros entry_id es. induction es as [|e es IH]; intros i H; simpl in *.
  - tauto.
  - destruct (String.eqb_spec (ID e) entry_id) as [|Hne]; [discriminate H|].
    intros [Heq|Hin]; [contradiction|]. exact (IH _ H Hin).
Qed.

Lemma find_entry_first : forall entry_id es base i e,
  find_entry entry_id base es = Some (i, e) ->
  forall j e', (j < i - base)%nat -> nth_error es j = Some e' -> ID e' <> entry_id.
Proof.
  intros entry_id es. induction es as [|a es IH]; intros base i e H j e' Hj Hn;
    simpl in H.
  - discriminate H.
  - destruct (String.eqb_spec (ID a) entry_id) as [|Hne].
    + inversion H; subst. lia.
    + destruct j as [|j]; simpl in Hn.
      * inversion Hn; subst. exact Hne.
      * apply find_entry_nth in H as Hb. destruct Hb as (Hle & _).
        apply (IH (S base) i e H j e'); [lia|exact Hn].
Qed.

(** X6: [_open_edit_window] shows "Entry not found" and opens nothing
    exactly when no entry has the ID; otherwise it opens the window on the
    first entry of the list with that ID, filled with its category, type
    and note, and changes nothing. *)
Theorem open_edit_window_first_match : forall entry_id st,
  (~ In entry_id (map ID (entries st)) /\
   _open_edit_window entry_id st
   = (Ok None, add_dialog (showerror "Error" "Entry not found") st)) \/
  (exists i e w,
     nth_error (entries st) i = Some e /\ ID e = entry_id /\
     (forall j e', (j < i)%nat -> nth_error (entries st) j = Some e' ->
                   ID e' <> entry_id) /\
     _open_edit_window entry_id st = (Ok (Some w), st) /\
     target w = i /\ cat_v w = Category e /\ type_v w = Type_ e /\
     note_v w = Note e).
Proof.
  intros entry_id st. unfold _open_edit_window, bind, get.
  destruct (find_entry entry_id 0 (entries st)) as [[i e]|] eqn:Hfind.
  - right. pose proof (find_entry_nth _ _ _ _ _ Hfind) as (_ & Hn & Hid).
    rewrite Nat.sub_0_r in Hn.
    eexists i, e, _. split; [exact Hn|]. split; [exact Hid|]. split.
    + intros j e' Hj Hn'.
      apply (find_entry_first _ _ _ _ _ Hfind j e'); [lia|exact Hn'].
    + split; [reflexivity|]. simpl. auto.
  - left. split; [exact (find_entry_none _ _ _ Hfind)|reflexivity].
Qed.

(** ** The tree after a change *)

(** The window that a successful add leaves. *)
Lemma add_entry_success : forall uuid4 now st x,
  is_empty (strip (category_var st)) = false ->
  float_of_string (strip (amount_var st)) = Some x ->
  readable (entries st) ->
  let e := mkEntry uuid4 now (type_var st) (AStr (format_2f x))
                   (strip (category_var st)) (strip (note_var st)) in
  exists ls ds,
    tree_lines (entries st ++ [e])%list = Ok ls /\
    add_entry uuid4 now st
    = (Ok tt, mkApp (entries st ++ [e])%list (budget st) "" "" (type_var st) ""
                    (budget_var st) ls (append_entry e (file st))
                    (dialogs st ++ ds)%list) /\
    (ds = [] \/ exists msg, ds = [showwarning "Budget Exceeded" msg]).
Proof.
  intros uuid4 now st x Hcat Hamt Hr. cbv zeta.
  assert (Hne : is_empty (strip (amount_var st)) = false).
  { destruct (strip (amount_var st)); [discriminate Hamt|reflexivity]. }
  set (e := mkEntry uuid4 now (type_var st) (AStr (format_2f x))
                    (strip (category_var st)) (strip (note_var st))).
  assert (Hr' : readable (entries st ++ [e])%list).
  { apply readable_app_one; [exact Hr|apply amount_str_readable]. }
  destruct (readable_tree_lines _ Hr') as [ls Hls].
  exists ls.
  rewrite add_entry_unfold. cbv zeta. rewrite Hcat, Hne, Hamt. simpl orb. cbv iota.
  fold e.
  rewrite (populate_tree_lines None _ ls) by exact Hls.
  cbn [budget clear_inputs set_tree set_entries set_file entries add_dialog
       category_var amount_var type_var note_var budget_var tree file dialogs].
  destruct (budget st) as [b|] eqn:Hb.
  2:{ exists []. rewrite app_nil_r. split; [exact Hls|].
      split; [unfold clear_inputs, add_dialog, set_tree, set_entries, set_file; simpl;
        rewrite ?Hb; reflexivity|left; reflexivity]. }
  destruct (String.eqb (type_var st) "Expense").
  2:{ exists []. rewrite app_nil_r. split; [exact Hls|].
      split; [unfold clear_inputs, add_dialog, set_tree, set_entries, set_file; simpl;
        rewrite ?Hb; reflexivity|left; reflexivity]. }
  destruct (readable_py_sum (filter (has_type "Expense") (entries st ++ [e])%list)
              (readable_filter _ _ Hr')) as [t Ht].
  rewrite Ht. destruct (b <? t)%float.
  - eexists [_]. split; [exact Hls|].
    split; [unfold clear_inputs, add_dialog, set_tree, set_entries, set_file; simpl;
        rewrite ?Hb; reflexivity|]. right. eauto.
  - exists []. rewrite app_nil_r. split; [exact Hls|].
    split; [unfold clear_inputs, add_dialog, set_tree, set_entries, set_file; simpl;
        rewrite ?Hb; reflexivity|left; reflexivity].
Qed.

(** X7: on a ledger whose amounts can be read, every change of the ledger
    ends with the tree showing the whole ledger, one line per entry in the
    order of the list: after an add that appended an entry, after a
    confirmed delete, after a save with a numeric amount and after a load
    that could read the file.  A month filter applied before is gone. *)
Theorem change_shows_whole_ledger : forall st,
  readable (entries st) ->
  (forall uuid4 now,
     entries (snd (add_entry uuid4 now st)) <> entries st ->
     tree_lines (entries (snd (add_entry uuid4 now st)))
     = Ok (tree (snd (add_entry uuid4 now st)))) /\
  (forall entry_id,
     tree_lines (entries (snd (_on_delete_selected (Some entry_id) true st)))
     = Ok (tree (snd (_on_delete_selected (Some entry_id) true st)))) /\
  (forall w x,
     float_of_string (amt_v w) = Some x ->
     tree_lines (entries (snd (save_changes w st)))
     = Ok (tree (snd (save_changes w st)))) /\
  (forall es,
     snd (read_entries (file st)) = Ok es ->
     tree_lines (entries (snd (_load_entries st)))
     = Ok (tree (snd (_load_entries st)))).
Proof.
  intros st Hr. split; [|split; [|split]].
  - intros uuid4 now Hchg.
    destruct (add_entry_ledger uuid4 now st) as [[He _]|(x & Hx & Hc & _)];
      [contradiction|].
    destruct (add_entry_success uuid4 now st x Hc Hx Hr) as (ls & ds & Hls & Hrun & _).
    rewrite Hrun. exact Hls.
  - intros entry_id. rewrite on_delete_selected_unfold. cbv zeta.
    destruct (readable_tree_lines _ (readable_filter
                (fun e => negb (String.eqb (ID e) entry_id)) _ Hr)) as [ls Hls].
    rewrite (populate_tree_lines None _ ls) by exact Hls. exact Hls.
  - intros w x Hx. rewrite save_changes_unfold, Hx. cbv zeta.
    assert (Hr' : readable (update_at (target w) (assign_fields w x) (entries st))).
    { apply readable_update_at; [exact Hr|]. intros e. apply amount_str_readable. }
    destruct (readable_tree_lines _ Hr') as [ls Hls].
    rewrite (populate_tree_lines None _ ls) by exact Hls. exact Hls.
  - intros es Hes. rewrite load_entries_unfold, Hes.
    assert (Hr' : readable es).
    { apply holds_float_readable. apply (read_entries_hold_floats (file st)). exact Hes. }
    destruct (readable_tree_lines _ Hr') as [ls Hls].
    rewrite (populate_tree_lines None _ ls) by exact Hls. exact Hls.
Qed.

(** ** The labels of the chart *)

Lemma dict_set_keys : forall d k v k',
  In k' (map fst (dict_set d k v)) <-> In k' (map fst d) \/ k' = k.
Proof.
  induction d as [|[k0 v0] d IH]; intros k v k'; simpl.
  - intuition congruence.
  - destruct (String.eqb_spec k0 k) as [->|Hne]; simpl.
    + intuition congruence.
    + rewrite IH. intuition congruence.
Qed.

Lemma dict_set_nodup : forall d k v,
  NoDup (map fst d) -> NoDup (map fst (dict_set d k v)).
Proof.
  induction d as [|[k0 v0] d IH]; intros k v H; simpl.
  - constructor; [simpl; tauto|constructor].
  - inversion H as [|? ? Hnin Hd]; subst.
    destruct (String.eqb_spec k0 k) as [->|Hne]; simpl.
    + constructor; assumption.
    + constructor; [|apply IH; exact Hd].
      rewrite dict_set_keys. intros [Hin|Heq]; [contradiction|congruence].
Qed.

Lemma chart_categories_keys : forall use d0 d,
  chart_categories d0 use = Ok d ->
  NoDup (map fst d0) ->
  NoDup (map fst d) /\
  forall c, In c (map fst d) <->
            In c (map fst d0) \/
            exists e, In e use /\ has_type "Expense" e = true /\ Category e = c.
Proof.
  induction use as [|e use IH]; intros d0 d H Hnd; simpl in H.
  - inversion H; subst. split; [exact Hnd|].
    intros c. split; [auto|]. intros [Hin|(e & [] & _)]. exact Hin.
  - destruct (has_type "Expense" e) eqn:Ht.
    + destruct (amount_float (Amount e)) as [x|]; [|discriminate H].
      destruct (IH _ _ H (dict_set_nodup _ _ _ Hnd)) as [Hnd' Hkeys].
      split; [exact Hnd'|]. intros c. rewrite Hkeys, dict_set_keys.
      split.
      * intros [[Hin|Heq]|(e' & Hin & Ht' & Hc)].
        -- left. exact Hin.
        -- right. exists e. simpl. auto.
        -- right. exists e'. simpl. auto.
      * intros [Hin|(e' & [Heq|Hin] & Ht' & Hc)].
        -- auto.
        -- subst e'. auto.
        -- right. exists e'. auto.
    + destruct (IH _ _ H Hnd) as [Hnd' Hkeys].
      split; [exact Hnd'|]. intros c. rewrite Hkeys.
      split.
      * intros [Hin|(e' & Hin & Ht' & Hc)]; [auto|].
        right. exists e'. simpl. auto.
      * intros [Hin|(e' & [Heq|Hin] & Ht' & Hc)]; [auto| |].
        -- subst e'. rewrite Ht in Ht'. discriminate Ht'.
        -- right. exists e'. auto.
Qed.

(** X8: when the amounts of the expenses can be read, [show_chart] shows
    the message that there is nothing to chart, and returns, exactly when
    the ledger has no expense.  Otherwise it asks [matplotlib.pyplot] for a
    pie with one size and one label per category, the labels being the
    categories of the expenses, each one once; it returns with the chart
    shown when the calls to pyplot return, and when they raise (a negative
    total, say) it raises the same and shows nothing. *)
Theorem show_chart_labels : forall st,
  readable (filter (has_type "Expense") (entries st)) ->
  (filter (has_type "Expense") (entries st) = [] ->
   show_chart None st
   = (Ok tt, add_dialog (showinfo "Info" "No expenses to show in chart") st)) /\
  (filter (has_type "Expense") (entries st) <> [] ->
   exists values labels,
     List.length values = List.length labels /\
     NoDup labels /\
     (forall c, In c labels <->
                exists e, In e (entries st) /\ has_type "Expense" e = true /\
                          Category e = c) /\
     show_chart None st
     = match pyplot_pie values labels with
       | Ok _ => (Ok tt, add_dialog (pie_chart values labels) st)
       | Raise err => (Raise err, st)
       end).
Proof.
  intros st Hr.
  destruct (chart_categories_total (entries st) [] Hr) as [d Hd].
  destruct (chart_categories_keys _ _ _ Hd (NoDup_nil _)) as [Hnd Hkeys].
  assert (Hkeys' : forall c, In c (map fst d) <->
            exists e, In e (entries st) /\ has_type "Expense" e = true /\ Category e = c).
  { intros c. rewrite Hkeys. simpl. tauto. }
  unfold show_chart, bind, get, lift. rewrite Hd.
  destruct d as [|p d'] eqn:Ed.
  - split; [reflexivity|].
    intros Hne. exfalso.
    destruct (filter (has_type "Expense") (entries st)) as [|e es] eqn:Ef;
      [apply Hne; reflexivity|].
    assert (Hin : In e (filter (has_type "Expense") (entries st)))
      by (rewrite Ef; left; reflexivity).
    apply filter_In in Hin. destruct Hin as [Hin Ht].
    apply (proj2 (Hkeys' (Category e))). exists e. auto.
  - split.
    + intros Hnone. exfalso.
      destruct (proj1 (Hkeys' (fst p)) (or_introl eq_refl)) as (e & Hin & Ht & _).
      assert (Hf : In e (filter (has_type "Expense") (entries st)))
        by (apply filter_In; auto).
      rewrite Hnone in Hf. exact Hf.
    + intros _. exists (map snd (p :: d')), (map fst (p :: d')).
      split; [rewrite !length_map; reflexivity|].
      split; [exact Hnd|]. split; [exact Hkeys'|].
      destruct (pyplot_pie (map snd (p :: d')) (map fst (p :: d'))) as [[]|err];
        reflexivity.
Qed.

(** ** Identifiers *)

Lemma filter_fresh : forall entry_id es,
  ~ In entry_id (map ID es) ->
  filter (fun e => negb (String.eqb (ID e) entry_id)) es = es.
Proof.
  intros entry_id es H. apply filter_id. apply Forall_forall. intros e He.
  apply negb_true_iff. apply String.eqb_neq. intros Heq. apply H.
  apply in_map_iff. exists e. auto.
Qed.

Lemma delete_confirmed_ledger : forall entry_id st,
  let st' := snd (_on_delete_selected (Some entry_id) true st) in
  entries st' = filter (fun e => negb (String.eqb (ID e) entry_id)) (entries st) /\
  file st' = Some (CSV_FIELDS :: map csv_row (entries st')).
Proof.
  intros entry_id st. cbv zeta. rewrite on_delete_selected_unfold. cbv zeta.
  match goal with |- context [_populate_tree None ?s] =>
    destruct (populate_tree_frame None s) as (Fe & _ & Ff & _) end.
  rewrite Fe, Ff. split; reflexivity.
Qed.

(** X9: when no entry of the ledger has the identifier given to an add,
    deleting that identifier afterwards gives back the list as it was before
    the add (whether the add was accepted or not), and leaves the file as
    the header and the records of that list. *)
Theorem add_then_delete_restores : forall uuid4 now st,
  ~ In uuid4 (map ID (entries st)) ->
  let st1 := snd (add_entry uuid4 now st) in
  let st2 := snd (_on_delete_selected (Some uuid4) true st1) in
  entries st2 = entries st /\
  file st2 = Some (CSV_FIELDS :: map csv_row (entries st)).
Proof.
  intros uuid4 now st Hfresh. cbv zeta.
  destruct (delete_confirmed_ledger uuid4 (snd (add_entry uuid4 now st))) as [He Hf].
  assert (H : entries (snd (_on_delete_selected (Some uuid4) true
                              (snd (add_entry uuid4 now st)))) = entries st).
  { rewrite He.
    destruct (add_entry_ledger uuid4 now st) as [[Ha _]|(x & _ & _ & Ha & _)];
      rewrite Ha.
    - apply filter_fresh. exact Hfresh.
    - rewrite filter_app, (filter_fresh _ _ Hfresh). simpl.
      rewrite String.eqb_refl. simpl. apply app_nil_r. }
  split; [exact H|]. rewrite Hf, H. reflexivity.
Qed.

Lemma update_at_ids : forall w x es i,
  map ID (update_at i (assign_fields w x) es) = map ID es.
Proof.
  intros w x es. induction es as [|e es IH]; intros [|i]; simpl;
    try reflexivity.
  rewrite IH. reflexivity.
Qed.

Lemma nodup_ids_filter : forall (p : entry -> bool) es,
  NoDup (map ID es) -> NoDup (map ID (filter p es)).
Proof.
  intros p es. induction es as [|e es IH]; intros H; simpl.
  - constructor.
  - inversion H as [|? ? Hnin Hd]; subst.
    destruct (p e); simpl; [|apply IH; exact Hd].
    constructor; [|apply IH; exact Hd].
    intros Hin. apply Hnin. apply in_map_iff in Hin.
    destruct Hin as (e' & Hid & He'). apply filter_In in He'.
    apply in_map_iff. exists e'. tauto.
Qed.

Lemma nodup_snoc : forall (l : list string) (a : string),
  NoDup l -> ~ In a l -> NoDup (l ++ [a])%list.
Proof.
  induction l as [|b l IH]; intros a Hnd Hnin; simpl.
  - constructor; [simpl; tauto|constructor].
  - inversion Hnd as [|? ? Hb Hl]; subst. constructor.
    + rewrite in_app_iff. simpl. intros [H|[H|[]]]; [contradiction|].
      apply Hnin. left. symmetry. exact H.
    + apply IH; [exact Hl|]. intros H. apply Hnin. right. exact H.
Qed.

(** X10: the callbacks never make two entries share an identifier by
    themselves.  On a ledger whose identifiers are all different, they stay
    all different after an add with an identifier that is not in the
    ledger, after a delete, and after a save, which keeps the identifiers
    of the list as they are. *)
Theorem ids_stay_distinct : forall st,
  NoDup (map ID (entries st)) ->
  (forall uuid4 now,
     ~ In uuid4 (map ID (entries st)) ->
     NoDup (map ID (entries (snd (add_entry uuid4 now st))))) /\
  (forall sel yes,
     NoDup (map ID (entries (snd (_on_delete_selected sel yes st))))) /\
  (forall w,
     map ID (entries (snd (save_changes w st))) = map ID (entries st)).
Proof.
  intros st Hnd. split; [|split].
  - intros uuid4 now Hfresh.
    destruct (add_entry_ledger uuid4 now st) as [[Ha _]|(x & _ & _ & Ha & _)];
      rewrite Ha; [exact Hnd|].
    rewrite map_app. simpl. apply nodup_snoc; assumption.
  - intros sel yes.
    destruct (delete_ledger sel yes st) as [[Hd _]|(entry_id & _ & _ & Hd & _)];
      rewrite Hd; [exact Hnd|apply nodup_ids_filter; exact Hnd].
  - intros w.
    destruct (save_ledger w st) as [[Hs _]|(x & _ & Hs & _)]; rewrite Hs;
      [reflexivity|apply update_at_ids].
Qed.

(** ** The budget *)

Lemma ltb_nan : forall t, (nan <? t)%float = false.
Proof.
  intros t. rewrite ltb_spec.
  change (Prim2SF nan) with S754_nan. reflexivity.
Qed.

(** The dialogs that [add_entry] adds; a budget warning among them comes
    from a budget that the sum of the expenses exceeds. *)
Lemma add_entry_dialogs : forall uuid4 now st,
  exists ds,
    dialogs (snd (add_entry uuid4 now st)) = (dialogs st ++ ds)%list /\
    (existsb is_budget_exceeded ds = true ->
     exists b t, budget st = Some b /\ (b <? t)%float = true).
Proof.
  intros uuid4 now st. rewrite add_entry_unfold. cbv zeta.
  destruct (is_empty (strip (category_var st)) || is_empty (strip (amount_var st))).
  { eexists. split; [reflexivity|]. discriminate. }
  destruct (float_of_string (strip (amount_var st))) as [amt_f|].
  2:{ eexists. split; [reflexivity|]. discriminate. }
  match goal with |- context [_populate_tree None ?s] =>
    pose proof (populate_tree_frame None s) as F;
    destruct (_populate_tree None s) as [r st3] end.
  simpl in F. destruct F as (Fe & Fb & Ff & Fd).
  assert (Hnil : exists ds, dialogs st3 = (dialogs st ++ ds)%list /\
            (existsb is_budget_exceeded ds = true ->
             exists b t, budget st = Some b /\ (b <? t)%float = true)).
  { exists []. rewrite app_nil_r. split; [exact Fd|discriminate]. }
  destruct r as [[]|err]; [|exact Hnil].
  simpl. rewrite Fb. destruct (budget st) as [b|]; [|exact Hnil].
  destruct (String.eqb (type_var st) "Expense"); [|exact Hnil].
  destruct (py_sum _) as [t|]; [|exact Hnil].
  destruct (b <? t)%float eqn:Hlt; [|exact Hnil].
  eexists. simpl. rewrite Fd. split; [reflexivity|]. intros _. eauto.
Qed.


(** X11: [set_budget] with a blank field clears the budget, and it takes
    [nan] for a number and sets it as the budget.  Either way the call
    returns normally, and no add made afterwards shows the budget warning,
    whatever is added: none of the dialogs that the add shows is one. *)
Theorem no_warning_without_threshold : forall st,
  is_empty (strip (budget_var st)) = true \/
  float_of_string (strip (budget_var st)) = Some nan ->
  let st1 := snd (set_budget st) in
  fst (set_budget st) = Ok tt /\
  (is_empty (strip (budget_var st)) = true ->
   budget st1 = None /\
   dialogs st1 = (dialogs st ++ [showinfo "Budget" "Budget cleared"])%list) /\
  (is_empty (strip (budget_var st)) = false -> budget st1 = Some nan) /\
  entries st1 = entries st /\ file st1 = file st /\
  forall uuid4 now c a t n, exists ds,
    dialogs (snd (add_entry uuid4 now (set_inputs c a t n st1)))
    = (dialogs st1 ++ ds)%list /\
    existsb is_budget_exceeded ds = false.
Proof.
  intros st H. cbv zeta.
  assert (Hrun : exists b msg,
            (b = None \/ b = Some nan) /\
            (is_empty (strip (budget_var st)) = true ->
             b = None /\ msg = ("Budget", "Budget cleared")) /\
            (is_empty (strip (budget_var st)) = false -> b = Some nan) /\
            set_budget st = (Ok tt, add_dialog (showinfo (fst msg) (snd msg))
                                      (set_budget_field b st))).
  { unfold set_budget, bind, get, modify, show.
    destruct (is_empty (strip (budget_var st))) eqn:He.
    - exists None, ("Budget", "Budget cleared").
      split; [auto|]. split; [auto|]. split; [discriminate|reflexivity].
    - destruct H as [H|H]; [discriminate H|]. rewrite H.
      eexists (Some nan), (_, _).
      split; [auto|]. split; [discriminate|]. split; reflexivity. }
  destruct Hrun as (b & msg & Hb & Hclear & Hnan & Hrun). rewrite Hrun. cbn [fst snd].
  split; [reflexivity|].
  split; [intros He; destruct (Hclear He) as [-> ->]; split; reflexivity|].
  split; [intros He; rewrite (Hnan He); reflexivity|].
  split; [reflexivity|]. split; [reflexivity|].
  intros uuid4 now c a t n.
  match goal with |- context [add_entry uuid4 now ?s] =>
    destruct (add_entry_dialogs uuid4 now s) as (ds & Hd & Hw) end.
  exists ds. split; [exact Hd|].
  destruct (existsb is_budget_exceeded ds) eqn:Hds; [|reflexivity].
  exfalso. destruct (Hw eq_refl) as (b' & t' & Hb' & Hlt). simpl in Hb'.
  destruct Hb as [->| ->]; [discriminate Hb'|].
  inversion Hb'; subst b'. rewrite ltb_nan in Hlt. discriminate Hlt.
Qed.

(** ** A file that cannot be read *)




(** ** Exporting to CSV *)

Lemma universal_newlines_id : forall s, no_cr s = true -> universal_newlines s = s.
Proof.
  induction s as [|c r IH]; intros H; simpl in *; [reflexivity|].
  apply andb_true_iff in H. destruct H as [Hc Hr].
  apply negb_true_iff in Hc. rewrite Hc, (IH Hr). reflexivity.
Qed.

Lemma universal_newlines_rows : forall rows,
  forallb (forallb no_cr) rows = true ->
  map (map universal_newlines) rows = rows.
Proof.
  induction rows as [|r rows IH]; intros H; simpl in *; [reflexivity|].
  apply andb_true_iff in H. destruct H as [Hr Hrows].
  rewrite (IH Hrows). f_equal.
  induction r as [|s r IHr]; simpl in *; [reflexivity|].
  apply andb_true_iff in Hr. destruct Hr as [Hs Hr].
  rewrite (universal_newlines_id s Hs), (IHr Hr). reflexivity.
Qed.

(** X13: an export to another file than the backing file, of a ledger whose
    amounts can be read and whose records hold no carriage return, rewrites
    the backing file from the list and writes the same records at the chosen
    path: the header, then one record per entry in the order of the list.
    Read like the backing file, they give the entries of the list back.  The
    list itself is not changed. *)
Theorem export_csv_copies_ledger : forall path st,
  is_empty path = false ->
  readable (entries st) ->
  forallb (forallb no_cr) (map csv_row (entries st)) = true ->
  let st' := snd (export_csv path false st) in
  fst (export_csv path false st)
  = Ok (Some (CSV_FIELDS :: map csv_row (entries st))) /\
  file st' = Some (CSV_FIELDS :: map csv_row (entries st)) /\
  entries st' = entries st /\
  exists es',
    read_rows (map csv_row (entries st)) = Ok es' /\
    Forall2 loaded_as (entries st) es'.
Proof.
  intros path st Hpath Hr Hcr. cbv zeta.
  unfold export_csv. rewrite Hpath.
  unfold bind, modify, get, ret, show. cbn [fst snd].
  unfold write_entries. cbn [file set_file entries option_map add_dialog].
  change (map (map universal_newlines) (CSV_FIELDS :: map csv_row (entries st)))
    with (map universal_newlines CSV_FIELDS
          :: map (map universal_newlines) (map csv_row (entries st))).
  rewrite (universal_newlines_rows _ Hcr).
  change (map universal_newlines CSV_FIELDS) with CSV_FIELDS.
  split; [reflexivity|]. split; [reflexivity|]. split; [reflexivity|].
  apply read_rows_written_loaded. exact Hr.
Qed.

Lemma export_csv_copies_ledger_witness :
  is_empty "backup.csv" = false /\
  readable (entries sample_app) /\
  forallb (forallb no_cr) (map csv_row (entries sample_app)) = true /\
  let st' := snd (export_csv "backup.csv" false sample_app) in
  fst (export_csv "backup.csv" false sample_app)
  = Ok (Some (CSV_FIELDS :: map csv_row (entries sample_app))) /\
  file st' = Some (CSV_FIELDS :: map csv_row (entries sample_app)) /\
  entries st' = entries sample_app /\
  exists es',
    read_rows (map csv_row (entries sample_app)) = Ok es' /\
    Forall2 loaded_as (entries sample_app) es'.
Proof.
  assert (H2 : readable (entries sample_app)).
  { repeat constructor; eexists; reflexivity. }
  assert (H3 : forallb (forallb no_cr) (map csv_row (entries sample_app)) = true)
    by (vm_compute; reflexivity).
  split; [reflexivity|]. split; [exact H2|]. split; [exact H3|].
  exact (export_csv_copies_ledger "backup.csv" sample_app eq_refl H2 H3).
Defined.

(** X14: an export onto the backing file itself leaves that file without
    any record, not even the header, while the list in memory stays; read
    again, as by Refresh or by the next start, the file gives no entry. *)
Theorem export_onto_data_file_empties_it : forall path st,
  is_empty path = false ->
  let st' := snd (export_csv path true st) in
  fst (export_csv path true st) = Ok None /\
  file st' = Some [] /\
  entries st' = entries st /\
  snd (read_entries (file st')) = Ok [] /\
  entries (snd (_load_entries st')) = [] /\
  entries (snd (startup (file st'))) = [].
Proof.
  intros path st Hpath. cbv zeta.
  assert (Hrun : export_csv path true st
                 = (Ok None,
                    add_dialog (showinfo "Export" ("Exported CSV to " ++ path))
                      (set_file (Some [])
                         (set_file (write_entries (entries st) (file st)) st)))).
  { unfold export_csv. rewrite Hpath. reflexivity. }
  rewrite Hrun. cbn [fst snd].
  split; [reflexivity|]. split; [reflexivity|]. split; [reflexivity|].
  split; [reflexivity|]. split.
  - rewrite load_entries_unfold. cbn [file add_dialog set_file].
    change (read_entries (Some [])) with (Some (@nil (list string)), @Ok (list entry) []).
    cbn [fst snd].
    match goal with |- context [_populate_tree None ?s] =>
      destruct (populate_tree_frame None s) as (Fe & _) end.
    rewrite Fe. reflexivity.
  - cbn [file add_dialog set_file]. unfold startup.
    rewrite load_entries_unfold. cbn [file init_app].
    change (read_entries (Some [])) with (Some (@nil (list string)), @Ok (list entry) []).
    cbn [fst snd].
    match goal with |- context [_populate_tree None ?s] =>
      destruct (populate_tree_frame None s) as (Fe & _) end.
    rewrite Fe. reflexivity.
Qed.

Lemma export_onto_data_file_empties_it_witness :
  is_empty "data/expenses.csv" = false /\
  let st' := snd (export_csv "data/expenses.csv" true sample_app) in
  fst (export_csv "data/expenses.csv" true sample_app) = Ok None /\
  file st' = Some [] /\
  entries st' = entries sample_app /\
  snd (read_entries (file st')) = Ok [] /\
  entries (snd (_load_entries st')) = [] /\
  entries (snd (startup (file st'))) = [].
Proof.
  split; [reflexivity|].
  exact (export_onto_data_file_empties_it "data/expenses.csv" sample_app eq_refl).
Defined.

(** ** The first start *)


(** ** The summary and the chart under a filter *)

Lemma show_summary_unfold : forall st,
  show_summary None st =
  match summary_totals (entries st) with
  | Raise err => (Raise err, st)
  | Ok t =>
      let msg := "Total Income: " ++ rupee ++ format_2f (income t) ++ newline
                 ++ "Total Expense: " ++ rupee ++ format_2f (expense t) ++ newline
                 ++ "Balance: " ++ rupee ++ format_2f (balance t) in
      (Ok tt,
       add_dialog
         (showinfo "Summary"
            (match budget st with
             | Some b => msg ++ newline ++ newline ++ "Monthly Budget: " ++ rupee
                             ++ format_2f b
             | None => msg
             end)) st)
  end.
Proof.
  intros st. unfold show_summary, bind, get, lift, show, modify.
  destruct (summary_totals (entries st)); reflexivity.
Qed.

Lemma show_chart_unfold : forall st,
  show_chart None st =
  match chart_categories [] (entries st) with
  | Raise err => (Raise err, st)
  | Ok [] => (Ok tt, add_dialog (showinfo "Info" "No expenses to show in chart") st)
  | Ok categories =>
      match pyplot_pie (map snd categories) (map fst categories) with
      | Ok _ =>
          (Ok tt, add_dialog (pie_chart (map snd categories) (map fst categories)) st)
      | Raise err => (Raise err, st)
      end
  end.
Proof.
  intros st. unfold show_chart, bind, get, lift, show, modify.
  destruct (chart_categories [] (entries st)) as [[|p d]|]; reflexivity.
Qed.

(** X16: the summary and the chart always take the whole ledger, never the
    lines that the tree shows.  After a month filter, whatever the month,
    [show_summary] and [show_chart] end the same way and add the same
    dialogs as they would have without the filter. *)
Theorem filter_does_not_narrow_summary : forall m st ds,
  let st' := snd (apply_filter m st) in
  (fst (show_summary None st') = fst (show_summary None st) /\
   (dialogs (snd (show_summary None st')) = (dialogs st' ++ ds)%list <->
    dialogs (snd (show_summary None st)) = (dialogs st ++ ds)%list)) /\
  (fst (show_chart None st') = fst (show_chart None st) /\
   (dialogs (snd (show_chart None st')) = (dialogs st' ++ ds)%list <->
    dialogs (snd (show_chart None st)) = (dialogs st ++ ds)%list)).
Proof.
  intros m st ds. cbv zeta.
  assert (He : entries (snd (apply_filter m st)) = entries st)
    by apply (view_frame st).
  assert (Hb : budget (snd (apply_filter m st)) = budget st).
  { rewrite apply_filter_unfold. cbv zeta.
    destruct (is_empty (strip m)); [reflexivity|].
    match goal with |- context [_populate_tree ?a ?s] =>
      destruct (populate_tree_frame a s) as (_ & Fb & _) end.
    rewrite Fb. destruct (month_filter (strip m) (entries st)); reflexivity. }
  set (st' := snd (apply_filter m st)) in *.
  assert (Happ : forall (l : list dialog) a b, (l ++ [a] = l ++ b)%list <-> [a] = b).
  { intros l a b. split; [apply app_inv_head|intros ->; reflexivity]. }
  assert (Hnil : forall (l : list dialog) b, (l = l ++ b)%list <-> [] = b).
  { intros l b. split; [|intros <-; symmetry; apply app_nil_r].
    intros H. rewrite <- (app_nil_r l) in H at 1. exact (app_inv_head _ _ _ H). }
  split.
  - rewrite !show_summary_unfold, He, Hb.
    destruct (summary_totals (entries st)) as [t|err]; cbn [fst snd].
    + split; [reflexivity|]. cbn [dialogs add_dialog]. rewrite !Happ. reflexivity.
    + split; [reflexivity|]. rewrite !Hnil. reflexivity.
  - rewrite !show_chart_unfold, He.
    destruct (chart_categories [] (entries st)) as [[|p d]|err]; cbn [fst snd].
    + split; [reflexivity|]. cbn [dialogs add_dialog]. rewrite !Happ. reflexivity.
    + destruct (pyplot_pie _ _); cbn [fst snd].
      * split; [reflexivity|]. cbn [dialogs add_dialog]. rewrite !Happ. reflexivity.
      * split; [reflexivity|]. rewrite !Hnil. reflexivity.
    + split; [reflexivity|]. rewrite !Hnil. reflexivity.
Qed.

(** ** What a save stores *)



(** ** Blanks around the month *)

Lemma lstrip_idem : forall s, lstrip (lstrip s) = lstrip s.
Proof.
  induction s as [|c s IH]; simpl; [reflexivity|].
  destruct (is_space c) eqn:Hc; [exact IH|]. simpl. rewrite Hc. reflexivity.
Qed.

Lemma rstrip_idem : forall s, rstrip (rstrip s) = rstrip s.
Proof.
  induction s as [|c s IH]; simpl; [reflexivity|].
  destruct (rstrip s) as [|a r] eqn:Hr.
  - destruct (is_space c) eqn:Hc; simpl; [reflexivity|]. rewrite Hc. reflexivity.
  - simpl in *. rewrite IH. reflexivity.
Qed.

Lemma lstrip_rstrip : forall s, lstrip (rstrip (lstrip s)) = rstrip (lstrip s).
Proof.
  induction s as [|c s IH]; simpl; [reflexivity|].
  destruct (is_space c) eqn:Hc; [exact IH|].
  simpl. destruct (rstrip s) as [|a r]; rewrite ?Hc; simpl; rewrite ?Hc; reflexivity.
Qed.

Lemma strip_idem : forall s, strip (strip s) = strip s.
Proof.
  intros s. unfold strip. rewrite lstrip_rstrip. apply rstrip_idem.
Qed.

(** X18: the month filter takes the text of the dialog without the blanks
    around it, so blanks around a month make no difference; and a text made
    of blanks only is refused with the input error, the tree, the ledger
    and the file staying as they are. *)
Theorem apply_filter_ignores_blanks : forall m st,
  apply_filter (strip m) st = apply_filter m st /\
  (is_empty (strip m) = true ->
   apply_filter m st
   = (Ok tt, add_dialog (showerror "Input Error" "Please enter month in format YYYY-MM")
               st)).
Proof.
  intros m st. split.
  - rewrite !apply_filter_unfold. cbv zeta. rewrite strip_idem. reflexivity.
  - intros H. rewrite apply_filter_unfold. cbv zeta. rewrite H. reflexivity.
Qed.

End Interpreter.

(** * Instances

    The statements above at sample windows, on CPython 3.12 with a pyplot
    that refuses negative sizes where the interpreter or pyplot matters. *)

(** ** [float] and the separators *)

(** [float] does not skip the separators FS..US that [str.strip] removes:
    the text FS [5] is not a number for [float], and for [save_changes],
    which does not strip the amount; stripped first, as [add_entry] does,
    it reads as 5. *)
Example float_keeps_separators :
  strip (String "028" "5") = "5" /\
  float_of_string (String "028" "5") = None /\
  float_of_string (strip (String "028" "5")) = Some 5%float /\
  float_of_string (String "009" "5 ") = Some 5%float /\
  save_changes (mkEdit 0 "Food" (String "028" "5") "Expense" "") sample_app
  = (Ok tt, add_dialog (showerror "Validation Error" "Amount must be a number.")
              sample_app).
Proof.
  repeat split; vm_compute; reflexivity.
Qed.

(** ** [add_entry] *)






(** ** The budget check *)


(** With the expenses 0.10 and 0.20 in the ledger and a budget of 0.6, an
    expense of 0.30 brings the plain sum to 0.6000000000000001 and the
    compensated sum to 0.6: the add warns up to CPython 3.11, and does not
    from CPython 3.12 on. *)
Example budget_warning_follows_the_sum :
  py_sum cpython311 [ten_cents; twenty_cents; thirty_cents] = Ok 0.60000000000000009%float /\
  py_sum cpython312 [ten_cents; twenty_cents; thirty_cents] = Ok 0.6%float /\
  dialogs (snd (add_entry cpython311 "w" "2024-05-01 09:15:00" budget_app))
  = [showwarning "Budget Exceeded"
       ("You have exceeded your budget of " ++ rupee ++ "0.60\." ++ newline
        ++ "Total expense: " ++ rupee ++ "0.60")] /\
  dialogs (snd (add_entry cpython312 "w" "2024-05-01 09:15:00" budget_app)) = [].
Proof.
  repeat split; vm_compute; reflexivity.
Qed.

Lemma no_warning_without_threshold_witness :
  (is_empty (strip (budget_var (mkApp (entries sample_app) (Some 1%float) "" "" "Expense"
                                      "" " NaN " [] sample_file []))) = true \/
   float_of_string (strip (budget_var (mkApp (entries sample_app) (Some 1%float) "" ""
                                             "Expense" "" " NaN " [] sample_file [])))
   = Some nan) /\
  let st := mkApp (entries sample_app) (Some 1%float) "" "" "Expense" "" " NaN " []
                  sample_file [] in
  let st1 := snd (set_budget st) in
  fst (set_budget st) = Ok tt /\
  (is_empty (strip (budget_var st)) = true ->
   budget st1 = None /\
   dialogs st1 = (dialogs st ++ [showinfo "Budget" "Budget cleared"])%list) /\
  (is_empty (strip (budget_var st)) = false -> budget st1 = Some nan) /\
  entries st1 = entries st /\ file st1 = file st /\
  forall uuid4 now c a t n, exists ds,
    dialogs (snd (add_entry cpython312 uuid4 now (set_inputs c a t n st1)))
    = (dialogs st1 ++ ds)%list /\
    existsb is_budget_exceeded ds = false.
Proof.
  assert (H : is_empty (strip (budget_var (mkApp (entries sample_app) (Some 1%float) "" ""
                                      "Expense" "" " NaN " [] sample_file []))) = true \/
   float_of_string (strip (budget_var (mkApp (entries sample_app) (Some 1%float) "" ""
                                             "Expense" "" " NaN " [] sample_file [])))
   = Some nan).
  { right. vm_compute. reflexivity. }
  split; [exact H|].
  exact (no_warning_without_threshold cpython312 _ H).
Defined.

(** ** Totals *)



(** The totals of that list, and of its two parts, on either interpreter. *)
Example totals_of_the_parts :
  summary_totals cpython311 ([ten_cents] ++ [twenty_cents; seventy_cents])
  = Ok (mkTotals 0 1 (-1)) /\
  summary_totals cpython312 ([ten_cents] ++ [twenty_cents; seventy_cents])
  = Ok (mkTotals 0 1 (-1)) /\
  summary_totals cpython311 [ten_cents] = Ok (mkTotals 0 0.1 (-0.1)) /\
  summary_totals cpython312 [ten_cents] = Ok (mkTotals 0 0.1 (-0.1)) /\
  summary_totals cpython311 [twenty_cents; seventy_cents]
  = Ok (mkTotals 0 0.89999999999999991 (-0.89999999999999991)) /\
  summary_totals cpython312 [twenty_cents; seventy_cents]
  = Ok (mkTotals 0 0.89999999999999991 (-0.89999999999999991)) /\
  (0.1 + 0.89999999999999991 =? 1)%float = false.
Proof.
  repeat split; vm_compute; reflexivity.
Qed.

(** ** The ledger over a session *)

Lemma reachable_readable_witness :
  reachable cpython312 pie_unless_negative (snd (add_entry cpython312 "d" "2024-04-02 12:00:00"
                    (set_inputs "Books" "19.999" "Expense" "" sample_app))) /\
  readable (entries (snd (add_entry cpython312 "d" "2024-04-02 12:00:00"
                            (set_inputs "Books" "19.999" "Expense" "" sample_app)))).
Proof.
  assert (H : reachable cpython312 pie_unless_negative (snd (add_entry cpython312 "d" "2024-04-02 12:00:00"
                                (set_inputs "Books" "19.999" "Expense" "" sample_app)))).
  { apply reach_add. apply (reach_inputs _ _ (snd (startup sample_file))).
    apply reach_start. }
  split; [exact H|]. exact (reachable_readable cpython312 pie_unless_negative _ H).
Defined.



Lemma change_shows_whole_ledger_witness :
  readable (entries (snd (apply_filter "2024-03" sample_app))) /\
  (forall uuid4 now,
     entries (snd (add_entry cpython312 uuid4 now (snd (apply_filter "2024-03" sample_app))))
       <> entries (snd (apply_filter "2024-03" sample_app)) ->
     tree_lines (entries (snd (add_entry cpython312 uuid4 now (snd (apply_filter "2024-03" sample_app)))))
     = Ok (tree (snd (add_entry cpython312 uuid4 now (snd (apply_filter "2024-03" sample_app)))))) /\
  (forall entry_id,
     tree_lines (entries (snd (_on_delete_selected (Some entry_id) true
                                 (snd (apply_filter "2024-03" sample_app)))))
     = Ok (tree (snd (_on_delete_selected (Some entry_id) true
                        (snd (apply_filter "2024-03" sample_app)))))) /\
  (forall w x,
     float_of_string (amt_v w) = Some x ->
     tree_lines (entries (snd (save_changes w (snd (apply_filter "2024-03" sample_app)))))
     = Ok (tree (snd (save_changes w (snd (apply_filter "2024-03" sample_app)))))) /\
  (forall es,
     snd (read_entries (file (snd (apply_filter "2024-03" sample_app)))) = Ok es ->
     tree_lines (entries (snd (_load_entries (snd (apply_filter "2024-03" sample_app)))))
     = Ok (tree (snd (_load_entries (snd (apply_filter "2024-03" sample_app)))))).
Proof.
  assert (H : readable (entries (snd (apply_filter "2024-03" sample_app)))).
  { repeat constructor; eexists; reflexivity. }
  split; [exact H|].
  exact (change_shows_whole_ledger cpython312 (snd (apply_filter "2024-03" sample_app)) H).
Defined.

Lemma add_then_delete_restores_witness :
  ~ In "d" (map ID (entries (set_inputs "Books" "19.999" "Expense" "" sample_app))) /\
  let st := set_inputs "Books" "19.999" "Expense" "" sample_app in
  let st1 := snd (add_entry cpython312 "d" "2024-04-02 12:00:00" st) in
  let st2 := snd (_on_delete_selected (Some "d") true st1) in
  entries st2 = entries st /\
  file st2 = Some (CSV_FIELDS :: map csv_row (entries st)).
Proof.
  assert (H : ~ In "d" (map ID (entries
                 (set_inputs "Books" "19.999" "Expense" "" sample_app)))).
  { simpl. intros [H|[H|[H|[]]]]; discriminate H. }
  split; [exact H|].
  exact (add_then_delete_restores cpython312 "d" "2024-04-02 12:00:00" _ H).
Defined.

Lemma ids_stay_distinct_witness :
  NoDup (map ID (entries sample_app)) /\
  (forall uuid4 now,
     ~ In uuid4 (map ID (entries sample_app)) ->
     NoDup (map ID (entries (snd (add_entry cpython312 uuid4 now sample_app))))) /\
  (forall sel yes,
     NoDup (map ID (entries (snd (_on_delete_selected sel yes sample_app))))) /\
  (forall w,
     map ID (entries (snd (save_changes w sample_app))) = map ID (entries sample_app)).
Proof.
  assert (H : NoDup (map ID (entries sample_app))).
  { simpl. repeat constructor; simpl; intuition discriminate. }
  split; [exact H|]. exact (ids_stay_distinct cpython312 sample_app H).
Defined.

(** ** The chart *)

Lemma show_chart_labels_witness :
  readable (filter (has_type "Expense") (entries sample_app)) /\
  (filter (has_type "Expense") (entries sample_app) = [] ->
   show_chart pie_unless_negative None sample_app
   = (Ok tt, add_dialog (showinfo "Info" "No expenses to show in chart") sample_app)) /\
  (filter (has_type "Expense") (entries sample_app) <> [] ->
   exists values labels,
     List.length values = List.length labels /\
     NoDup labels /\
     (forall c, In c labels <->
                exists e, In e (entries sample_app) /\ has_type "Expense" e = true /\
                          Category e = c) /\
     show_chart pie_unless_negative None sample_app
     = match pie_unless_negative values labels with
       | Ok _ => (Ok tt, add_dialog (pie_chart values labels) sample_app)
       | Raise err => (Raise err, sample_app)
       end).
Proof.
  assert (H : readable (filter (has_type "Expense") (entries sample_app))).
  { repeat constructor; eexists; reflexivity. }
  split; [exact H|]. exact (show_chart_labels pie_unless_negative sample_app H).
Defined.

(** The chart of the sample ledger is drawn; with a pyplot that refuses
    negative sizes, the chart of a ledger whose only expense is -5 raises
    and shows nothing. *)
Example show_chart_of_a_negative_expense :
  show_chart pie_unless_negative None sample_app
  = (Ok tt, add_dialog (pie_chart [12.5%float; 7.25%float] ["Food"; "Bus"]) sample_app) /\
  show_chart pie_unless_negative None
    (set_entries [mkEntry "n" "2024-05-01 09:00:00" "Expense" (AStr "-5.00") "Refund" ""]
                 sample_app)
  = (Raise ValueError,
     set_entries [mkEntry "n" "2024-05-01 09:00:00" "Expense" (AStr "-5.00") "Refund" ""]
                 sample_app).
Proof.
  split; vm_compute; reflexivity.
Qed.
